(** * agent.py: the command-state engine of the VX300 command generator

    A shallow embedding of the three tool functions of [agent.py]
    ([move_cartesian], [rotate_joint], [control_gripper]), of the module
    state they mutate ([arm_state], [json_commands], [python_commands]) and
    of the two writers ([write_json_file], [write_python_file]).

    Python values are modelled as follows.
    - [float] is IEEE-754 binary64 with round-to-nearest-even: Rocq's
      primitive [float].  The tools are modelled twice.  In module [Agent]
      their numeric parameters are taken at their annotated type [float]; an
      integer literal in a call, as in [move_cartesian(z=5)], is read as the
      float of the same value.  In module [Dyn] a numeric argument is what
      Python passes, an [int] or a [float]: an [int] is converted where the
      program uses it as a float, which raises [OverflowError] when it is
      too large for a double, and is stored as it is where the program
      stores it.  On floats the two models are the same.
    - [str] is a sequence of code points; the model covers the strings whose
      code points are below 256, as the Rocq [string] of those code points.
    - the [dict] [arm_state] is a finite map from keys to floats; a lookup
      of an absent key raises [KeyError].
    - a [dict] literal appended to [json_commands] is an association list in
      insertion order, the order [json.dump] writes it in.
    - the files written by the two writers live in a map from file names to
      contents; a destination is assumed writable. *)

From Stdlib Require Import ZArith NArith Ascii String List.
From Stdlib Require Import Floats.PrimFloat Floats.SpecFloat Floats.FloatOps Floats.FloatAxioms.
From stdpp Require Import base option list strings gmap.

(** ** Python builtins used by the program *)

Module Py.

(** *** [str] *)

Definition LF : ascii := "010"%char.
Definition DQUOTE : ascii := "034"%char.
Definition BACKSLASH : ascii := "092"%char.

Definition ord (c : ascii) : N := N_of_ascii c.
Definition chr (n : N) : ascii := ascii_of_N n.

Definition between (lo hi n : N) : bool := (lo <=? n)%N && (n <=? hi)%N.

(** [c.isupper()] for a code point below 256: A-Z and the Latin-1 capitals
    U+00C0..U+00DE without the multiplication sign U+00D7. *)
Definition isupper (c : ascii) : bool :=
  between 65 90 (ord c) || (between 192 222 (ord c) && negb (ord c =? 215)%N).

(** Lower case of one code point: capitals move up by 32. *)
Definition char_lower (c : ascii) : ascii :=
  if isupper c then chr (ord c + 32) else c.

(** [s.lower()] *)
Fixpoint lower (s : string) : string :=
  match s with
  | EmptyString => EmptyString
  | String c s' => String (char_lower c) (lower s')
  end.

(** [c.isspace()] for a code point below 256. *)
Definition isspace (c : ascii) : bool :=
  between 9 13 (ord c) || between 28 32 (ord c)
  || (ord c =? 133)%N || (ord c =? 160)%N.

Fixpoint lstrip (s : string) : string :=
  match s with
  | EmptyString => EmptyString
  | String c s' => if isspace c then lstrip s' else s
  end.

Fixpoint rstrip (s : string) : string :=
  match s with
  | EmptyString => EmptyString
  | String c s' =>
      match rstrip s' with
      | EmptyString => if isspace c then EmptyString else String c EmptyString
      | r => String c r
      end
  end.

(** [s.strip()]: white space removed at both ends. *)
Definition strip (s : string) : string := rstrip (lstrip s).

(** [sep.join(l)] *)
Fixpoint join (sep : string) (l : list string) : string :=
  match l with
  | [] => ""
  | [s] => s
  | s :: l' => s +:+ sep +:+ join sep l'
  end.

(** [s * n] *)
Fixpoint repeat_str (s : string) (n : nat) : string :=
  match n with
  | O => ""
  | S n' => s +:+ repeat_str s n'
  end.

(** *** [float] and [math] *)

(** [math.pi], the double nearest to pi. *)
Definition pi : float := 0x1.921fb54442d18p+1%float.

(** [math.radians(x)]: CPython multiplies by the constant [pi / 180.0]. *)
Definition degToRad : float := (pi / 180)%float.
Definition radians (x : float) : float := (x * degToRad)%float.

(** A numeric argument: an [int] or a [float]. *)
Inductive number :=
  | PyInt (n : Z)
  | PyFloat (f : float).

(** The double nearest to an [int], ties to even, as [PyLong_AsDouble]
    rounds; an infinity stands for an [int] beyond the doubles. *)
Definition double_of_int (n : Z) : spec_float := binary_normalize prec emax n 0 false.

(** [repr] of a float, which is what an f-string field and [json] print.
    The program relies on it only as a function from floats to text. *)
Class FloatRepr := float_repr : float → string.

(** *** [repr] of a float, computed

    An instance of [FloatRepr] that follows CPython on every double, in exact
    integer arithmetic. *)

(** Decimal digits of a non-negative integer, most significant first. *)
Fixpoint digits_fuel (fuel : nat) (n : Z) (acc : string) : string :=
  match fuel with
  | O => acc
  | S fuel' =>
      let acc' := String (ascii_of_N (48 + Z.to_N (n mod 10))) acc in
      if (n <? 10)%Z then acc' else digits_fuel fuel' (n / 10) acc'
  end.
Definition digits (n : Z) : string := digits_fuel (S (Z.to_nat (Z.log2 n))) n "".

Fixpoint rstrip_zeros (s : string) : string :=
  match s with
  | EmptyString => EmptyString
  | String c s' =>
      match rstrip_zeros s' with
      | EmptyString => if Ascii.eqb c "0" then EmptyString else String c EmptyString
      | r => String c r
      end
  end.

Fixpoint zeros (n : nat) : string :=
  match n with O => "" | S n' => String "0" (zeros n') end.

(** The least [p] from [p] on with [V < 10^p], with [T] the scaled [10^p];
    returned with its power of ten. *)
Fixpoint decpt_from (fuel : nat) (V p T : Z) : Z * Z :=
  match fuel with
  | O => (p, T)
  | S fuel' => if (V <? T)%Z then (p, T) else decpt_from fuel' V (p + 1)%Z (10 * T)%Z
  end.

(** The shortest decimal [D * 10^q] that reads back as the float and is
    nearest to it: one more digit at each step, [T] the scaled [10^q]. *)
Fixpoint shortest (fuel : nat) (even : bool) (V LO HI q T : Z) : Z * Z :=
  let Dlo := (V / T)%Z in
  let Dhi := (Dlo + 1)%Z in
  let inside (D : Z) :=
    let d := (D * T)%Z in
    if even then (LO <=? d)%Z && (d <=? HI)%Z else (LO <? d)%Z && (d <? HI)%Z in
  let down := (V - Dlo * T)%Z in
  let up := (Dhi * T - V)%Z in
  match fuel with
  | O => (Dlo, q)
  | S fuel' =>
      if inside Dlo && inside Dhi then
        if (down <? up)%Z then (Dlo, q)
        else if (up <? down)%Z then (Dhi, q)
        else if Z.even Dlo then (Dlo, q) else (Dhi, q)
      else if inside Dlo then (Dlo, q)
      else if inside Dhi then (Dhi, q)
      else shortest fuel' even V LO HI (q - 1)%Z (T / 10)%Z
  end.

(** Digits and decimal point position of the finite non-zero double
    [m * 2^e].  Every quantity is held as an integer, scaled by
    [2^s2 * 10^s10]: [V] the double, [LO] and [HI] the ends of the interval
    of reals that round to it. *)
Definition finite_digits (m : positive) (e : Z) : string * Z :=
  let s2 := Z.max 0 (2 - e) in
  let s10 := (17 + (if (e <? 0)%Z then - e * 30103 / 100000 + 1 else 0))%Z in
  let scaled (x : Z) := Z.shiftl (x * 10 ^ s10) s2 in
  let V := Z.shiftl (scaled (Z.pos m)) e in
  let HALF := Z.shiftl (scaled 1%Z) (e - 1) in
  let QUARTER := Z.shiftl (scaled 1%Z) (e - 2) in
  let LO := if (Z.pos m =? 2 ^ 52)%Z && (-1074 <? e)%Z then (V - QUARTER)%Z else (V - HALF)%Z in
  let HI := (V + HALF)%Z in
  let '(p, T) := decpt_from 640 V (17 - s10) (Z.shiftl (10 ^ 17) s2) in
  let '(D, q) := shortest 17 (Z.even (Z.pos m)) V LO HI (p - 1) (T / 10) in
  let ds := digits D in
  (rstrip_zeros ds, (q + Z.of_nat (String.length ds))%Z).

Definition substring_from (n : nat) (s : string) : string :=
  String.substring n (String.length s - n) s.

(** The digits [ds] with the decimal point after [decpt] of them, laid out
    as [repr] does. *)
Definition format_short (ds : string) (decpt : Z) : string :=
  let k := Z.of_nat (String.length ds) in
  if (decpt <=? -4)%Z || (16 <? decpt)%Z then
    let ex := (decpt - 1)%Z in
    let exds := digits (Z.abs ex) in
    String.substring 0 1 ds
    +:+ (if (1 <? k)%Z then "." +:+ substring_from 1 ds else "")
    +:+ "e" +:+ (if (ex <? 0)%Z then "-" else "+")
    +:+ (if (Z.abs ex <? 10)%Z then "0" else "") +:+ exds
  else if (decpt <=? 0)%Z then
    "0." +:+ zeros (Z.to_nat (- decpt)) +:+ ds
  else if (k <=? decpt)%Z then
    ds +:+ zeros (Z.to_nat (decpt - k)) +:+ ".0"
  else
    String.substring 0 (Z.to_nat decpt) ds +:+ "." +:+ substring_from (Z.to_nat decpt) ds.

(** [repr(x)] as CPython computes it ([PyOS_double_to_string] with format
    code ['r'] and [Py_DTSF_ADD_DOT_0]): the shortest digits that read back
    as [x], in exponent form when the decimal point position is above 16 or
    below -3. *)
Definition double_to_string_r (x : float) : string :=
  match Prim2SF x with
  | S754_nan => "nan"
  | S754_infinity s => if s then "-inf" else "inf"
  | S754_zero s => if s then "-0.0" else "0.0"
  | S754_finite s m e =>
      let '(ds, decpt) := finite_digits m e in
      (if s then "-" else "") +:+ format_short ds decpt
  end.

Definition cpython_repr : FloatRepr := double_to_string_r.

(** *** Values stored in the command dictionaries *)

Inductive value :=
  | Str (s : string)
  | Float (f : float)
  | Integer (n : Z).

(** [repr] of an [int]. *)
Definition int_repr (n : Z) : string :=
  if (n <? 0)%Z then "-" +:+ digits (- n) else digits n.

(** A dictionary literal, in insertion order. *)
Definition dict := list (string * value).

(** [d[k]] on such a literal. *)
Fixpoint dict_get (d : dict) (k : string) : option value :=
  match d with
  | [] => None
  | (k', v) :: d' => if String.eqb k' k then Some v else dict_get d' k
  end.

End Py.

(** ** [json.dump(obj, f, indent=2)] on a list of dictionaries

    The encoder of the [json] module with its defaults ([ensure_ascii],
    [allow_nan], separators [","] and [": "]) and an indentation of two
    spaces, for the values the program stores. *)

Module Json.
Import Py.

Section Encoder.
Context `{FloatRepr}.

Definition hex_digit (n : N) : ascii :=
  if (n <? 10)%N then chr (48 + n) else chr (87 + n).

(** One character of a string literal. *)
Definition escape_char (c : ascii) : string :=
  let n := ord c in
  if (n =? 34)%N then String BACKSLASH (String DQUOTE "")
  else if (n =? 92)%N then String BACKSLASH (String BACKSLASH "")
  else if (n =? 10)%N then String BACKSLASH "n"
  else if (n =? 13)%N then String BACKSLASH "r"
  else if (n =? 9)%N then String BACKSLASH "t"
  else if (n =? 12)%N then String BACKSLASH "f"
  else if (n =? 8)%N then String BACKSLASH "b"
  else if between 32 126 n then String c ""
  else String BACKSLASH
         ("u00" +:+ String (hex_digit (n / 16)) (String (hex_digit (n mod 16)) "")).

Fixpoint escape (s : string) : string :=
  match s with
  | EmptyString => EmptyString
  | String c s' => escape_char c +:+ escape s'
  end.

(** [encode_basestring_ascii] *)
Definition encode_str (s : string) : string :=
  String DQUOTE (escape s) +:+ String DQUOTE "".

(** [floatstr] *)
Definition floatstr (o : float) : string :=
  if negb (o =? o)%float then "NaN"
  else if (o =? infinity)%float then "Infinity"
  else if (o =? neg_infinity)%float then "-Infinity"
  else float_repr o.

Definition encode_value (v : value) : string :=
  match v with
  | Str s => encode_str s
  | Float f => floatstr f
  | Integer n => int_repr n
  end.

Definition newline_indent (level : nat) : string :=
  String LF (repeat_str "  " level).

Definition encode_item (kv : string * value) : string :=
  encode_str kv.1 +:+ ": " +:+ encode_value kv.2.

Definition encode_dict (level : nat) (d : dict) : string :=
  match d with
  | [] => "{}"
  | _ =>
      "{" +:+ newline_indent (S level)
      +:+ join ("," +:+ newline_indent (S level)) (map encode_item d)
      +:+ newline_indent level +:+ "}"
  end.

Definition encode_list (level : nat) (l : list dict) : string :=
  match l with
  | [] => "[]"
  | _ =>
      "[" +:+ newline_indent (S level)
      +:+ join ("," +:+ newline_indent (S level)) (map (encode_dict (S level)) l)
      +:+ newline_indent level +:+ "]"
  end.

(** The text [json.dump(l, f, indent=2)] writes to [f]. *)
Definition dumps (l : list dict) : string := encode_list 0 l.

End Encoder.
End Json.

(** ** The module state and the effects of the program *)

Module Agent.
Import Py.

(** The three module-level objects and the files written so far. *)
Record Session := mkSession {
  arm_state : gmap string float;
  json_commands : list dict;
  python_commands : list string;
  files : gmap string string
}.

Inductive exn :=
  | KeyError (key : string)
  | OverflowError.

(** A call either returns or raises; the mutations made before a raise
    stay in place. *)
Inductive outcome (A : Type) :=
  | Returns (a : A) (s : Session)
  | Raises (e : exn) (s : Session).
Arguments Returns {A} a s.
Arguments Raises {A} e s.

Definition M (A : Type) : Type := Session → outcome A.

#[global] Instance M_ret : MRet M := λ A a s, Returns a s.
#[global] Instance M_bind : MBind M := λ A B f m s,
  match m s with
  | Returns a s' => f a s'
  | Raises e s' => Raises e s'
  end.

Definition raise {A} (e : exn) : M A := λ s, Raises e s.

(** The current value of a module-level name. *)
Definition read {A} (field : Session → A) : M A := λ s, Returns (field s) s.

(** [arm_state[k]] *)
Definition arm_get (k : string) : M float := λ s,
  match arm_state s !! k with
  | Some v => Returns v s
  | None => raise (KeyError k) s
  end.

(** [arm_state[k] = v] *)
Definition arm_set (k : string) (v : float) : M unit := λ s,
  Returns tt (mkSession (<[k := v]> (arm_state s)) (json_commands s)
                        (python_commands s) (files s)).

(** [arm_state[k] += v] *)
Definition arm_iadd (k : string) (v : float) : M unit :=
  cur ← arm_get k; arm_set k (cur + v)%float.

(** [json_commands.append(d)] *)
Definition json_append (d : dict) : M unit := λ s,
  Returns tt (mkSession (arm_state s) (json_commands s ++ [d])
                        (python_commands s) (files s)).

(** [python_commands.append(line)] *)
Definition python_append (line : string) : M unit := λ s,
  Returns tt (mkSession (arm_state s) (json_commands s)
                        (python_commands s ++ [line]) (files s)).

(** The state with the files replaced by [fs]. *)
Definition set_files (fs : gmap string string) (s : Session) : Session :=
  mkSession (arm_state s) (json_commands s) (python_commands s) fs.

(** [open(filename, "w")]: the file is created or truncated. *)
Definition open_w (filename : string) : M unit := λ s,
  Returns tt (set_files (<[filename := ""]> (files s)) s).

(** [f.write(text)] on the file opened under [filename]. *)
Definition f_write (filename : string) (text : string) : M unit := λ s,
  Returns tt (set_files (<[filename := default "" (files s !! filename) +:+ text]> (files s)) s).

(** [for x in l: body(x)] *)
Fixpoint for_each {A} (l : list A) (body : A → M unit) : M unit :=
  match l with
  | [] => mret tt
  | x :: l' => body x;; for_each l' body
  end.

(** The state at import time (lines 18 to 26). *)
Definition initial : Session :=
  mkSession (<["z" := 0%float]> (<["y" := 0%float]> (<["x" := 0%float]> ∅))) [] [] ∅.

(** One call made by the agent.  A Cartesian axis left out of the call takes
    its default [0.0]. *)
Inductive call :=
  | MoveCartesian (x y z : option float)
  | RotateJoint (joint_name : string) (degrees : float)
  | ControlGripper (action : string).

Section Tools.
Context `{FloatRepr}.

(** Lines 31 to 48. *)
Definition move_cartesian (x y z : float) : M unit :=
  arm_iadd "x" x;;
  arm_iadd "y" y;;
  arm_iadd "z" z;;
  jx ← arm_get "x";
  jy ← arm_get "y";
  jz ← arm_get "z";
  json_append [("type", Str "cartesian_move");
               ("x", Float jx); ("y", Float jy); ("z", Float jz)];;
  px ← arm_get "x";
  py ← arm_get "y";
  pz ← arm_get "z";
  python_append ("bot.arm.set_ee_cartesian_trajectory(x=" +:+ float_repr px
                 +:+ ", y=" +:+ float_repr py
                 +:+ ", z=" +:+ float_repr pz +:+ ")").

(** Lines 51 to 64. *)
Definition rotate_joint (joint_name : string) (degrees : float) : M unit :=
  let radians := radians degrees in
  json_append [("type", Str "rotate_joint");
               ("joint_name", Str joint_name);
               ("degrees", Float degrees)];;
  python_append ("bot.arm.set_single_joint_position(joint_name='" +:+ joint_name
                 +:+ "', position=" +:+ float_repr radians +:+ ")").

(** Lines 67 to 78. *)
Definition control_gripper (action : string) : M unit :=
  json_append [("type", Str "gripper"); ("action", Str (lower action))];;
  python_append ("bot.gripper." +:+ action +:+ "()").

(** Lines 115 to 117. *)
Definition write_json_file (filename : string) : M unit :=
  open_w filename;;
  js ← read json_commands;
  f_write filename (Json.dumps js).

(** Lines 120 to 129. *)
Definition write_python_file (filename : string) : M unit :=
  open_w filename;;
  f_write filename ("from interbotix_xs_modules.arm import InterbotixManipulatorXS"
                    +:+ String LF (String LF ""));;
  f_write filename ("bot = InterbotixManipulatorXS(" +:+ String LF "");;
  f_write filename ("    robot_model='vx300'," +:+ String LF "");;
  f_write filename ("    group_name='arm'," +:+ String LF "");;
  f_write filename ("    gripper_name='gripper'" +:+ String LF "");;
  f_write filename (")" +:+ String LF (String LF ""));;
  cmds ← read python_commands;
  for_each cmds (λ command, f_write filename (strip command +:+ String LF "")).

(** Lines 131 to 133: both writers, each with its default file name. *)
Definition generate_files : M unit :=
  write_json_file "generated_json_commands.json";;
  write_python_file "generated_python_commands.py".

Definition dispatch (c : call) : M unit :=
  match c with
  | MoveCartesian x y z =>
      move_cartesian (default 0%float x) (default 0%float y) (default 0%float z)
  | RotateJoint joint_name degrees => rotate_joint joint_name degrees
  | ControlGripper action => control_gripper action
  end.

(** The calls of a session, in order. *)
Definition run (calls : list call) : M unit := for_each calls dispatch.

End Tools.
End Agent.

(** ** The tools on the numbers Python passes

    The same three tools with numeric arguments that are [int] or [float].
    Nothing checks an argument against its annotation, so an [int] reaches
    [+=] on line 33 to 35 and [math.radians] on line 52, which convert it to
    a double, and line 58, which stores it as passed. *)

Module Dyn.
Import Py Agent.

(** The conversion of a number to a double ([PyFloat_AsDouble]): a float is
    itself, an [int] is rounded to the nearest double, and an [int] beyond
    the doubles raises [OverflowError]. *)
Definition as_double (v : number) : M float :=
  match v with
  | PyFloat f => mret f
  | PyInt n =>
      match double_of_int n with
      | S754_infinity _ => raise OverflowError
      | sf => mret (SF2Prim sf)
      end
  end.

(** The number as a value of a record. *)
Definition stored (v : number) : value :=
  match v with
  | PyInt n => Integer n
  | PyFloat f => Float f
  end.

(** [arm_state[k] += v]: the key is read, then [v] is converted and added,
    then the sum is stored. *)
Definition arm_iadd (k : string) (v : number) : M unit :=
  cur ← arm_get k;
  d ← as_double v;
  arm_set k (cur + d)%float.

(** One call made by the agent, with the numbers as passed. *)
Inductive call :=
  | MoveCartesian (x y z : option number)
  | RotateJoint (joint_name : string) (degrees : number)
  | ControlGripper (action : string).

Section Tools.
Context `{FloatRepr}.

(** Lines 31 to 48. *)
Definition move_cartesian (x y z : number) : M unit :=
  arm_iadd "x" x;;
  arm_iadd "y" y;;
  arm_iadd "z" z;;
  jx ← arm_get "x";
  jy ← arm_get "y";
  jz ← arm_get "z";
  json_append [("type", Str "cartesian_move");
               ("x", Float jx); ("y", Float jy); ("z", Float jz)];;
  px ← arm_get "x";
  py ← arm_get "y";
  pz ← arm_get "z";
  python_append ("bot.arm.set_ee_cartesian_trajectory(x=" +:+ float_repr px
                 +:+ ", y=" +:+ float_repr py
                 +:+ ", z=" +:+ float_repr pz +:+ ")").

(** Lines 51 to 64. *)
Definition rotate_joint (joint_name : string) (degrees : number) : M unit :=
  d ← as_double degrees;
  let radians := radians d in
  json_append [("type", Str "rotate_joint");
               ("joint_name", Str joint_name);
               ("degrees", stored degrees)];;
  python_append ("bot.arm.set_single_joint_position(joint_name='" +:+ joint_name
                 +:+ "', position=" +:+ float_repr radians +:+ ")").

Definition dispatch (c : call) : M unit :=
  match c with
  | MoveCartesian x y z =>
      move_cartesian (default (PyFloat 0) x) (default (PyFloat 0) y)
                     (default (PyFloat 0) z)
  | RotateJoint joint_name degrees => rotate_joint joint_name degrees
  | ControlGripper action => control_gripper action
  end.

(** The calls of a session, in order, up to the first that raises. *)
Definition run (calls : list call) : M unit := for_each calls dispatch.

End Tools.
End Dyn.

(** ** Vocabulary of the properties *)

Module Spec.
Import Py Agent.

(** A Cartesian triple [(x, y, z)]. *)
Definition vec : Type := float * float * float.

Definition vadd (p d : vec) : vec :=
  ((p.1.1 + d.1.1)%float, (p.1.2 + d.1.2)%float, (p.2 + d.2)%float).

Definition origin : vec := (0%float, 0%float, 0%float).

(** The deltas added one after the other, in call order, from the origin. *)
Definition vsum (deltas : list vec) : vec := fold_left vadd deltas origin.

(** The position held by [arm_state], when its three keys are bound. *)
Definition position (s : Session) : option vec :=
  x ← arm_state s !! "x";
  y ← arm_state s !! "y";
  z ← arm_state s !! "z";
  Some (x, y, z).

(** The call [move_cartesian(x=dx, y=dy, z=dz)]. *)
Definition move_call (d : vec) : call :=
  MoveCartesian (Some d.1.1) (Some d.1.2) (Some d.2).

(** The delta a call adds to the position. *)
Definition delta_of (c : call) : vec :=
  match c with
  | MoveCartesian x y z => (default 0%float x, default 0%float y, default 0%float z)
  | _ => origin
  end.

Definition is_move (c : call) : bool :=
  match c with MoveCartesian _ _ _ => true | _ => false end.

(** The three shapes of structured record. *)
Definition cartesian_move_record (p : vec) : dict :=
  [("type", Str "cartesian_move");
   ("x", Float p.1.1); ("y", Float p.1.2); ("z", Float p.2)].

Definition rotate_joint_record (joint_name : string) (degrees : float) : dict :=
  [("type", Str "rotate_joint");
   ("joint_name", Str joint_name); ("degrees", Float degrees)].

Definition gripper_record (action : string) : dict :=
  [("type", Str "gripper"); ("action", Str action)].

Section Lines.
Context `{FloatRepr}.

(** The three shapes of executable line. *)
Definition move_line (p : vec) : string :=
  "bot.arm.set_ee_cartesian_trajectory(x=" +:+ float_repr p.1.1
  +:+ ", y=" +:+ float_repr p.1.2 +:+ ", z=" +:+ float_repr p.2 +:+ ")".

Definition rotate_line (joint_name : string) (position : float) : string :=
  "bot.arm.set_single_joint_position(joint_name='" +:+ joint_name
  +:+ "', position=" +:+ float_repr position +:+ ")".

Definition gripper_line (action : string) : string :=
  "bot.gripper." +:+ action +:+ "()".

(** The position after a call made at position [p]. *)
Definition position_after (p : vec) (c : call) : vec :=
  match c with
  | MoveCartesian _ _ _ => vadd p (delta_of c)
  | _ => p
  end.

(** The record and the line a call leaves, given the position after it. *)
Definition record_of (p' : vec) (c : call) : dict :=
  match c with
  | MoveCartesian _ _ _ => cartesian_move_record p'
  | RotateJoint joint_name degrees => rotate_joint_record joint_name degrees
  | ControlGripper action => gripper_record (lower action)
  end.

Definition line_of (p' : vec) (c : call) : string :=
  match c with
  | MoveCartesian _ _ _ => move_line p'
  | RotateJoint joint_name degrees => rotate_line joint_name (radians degrees)
  | ControlGripper action => gripper_line action
  end.

(** Records and lines of a whole session that starts at position [p]. *)
Fixpoint records (p : vec) (calls : list call) : list dict :=
  match calls with
  | [] => []
  | c :: calls' =>
      let p' := position_after p c in record_of p' c :: records p' calls'
  end.

Fixpoint lines (p : vec) (calls : list call) : list string :=
  match calls with
  | [] => []
  | c :: calls' =>
      let p' := position_after p c in line_of p' c :: lines p' calls'
  end.

(** The state after a call made in [s] that ends at position [p']. *)
Definition arm_at (p' : vec) (arm : gmap string float) : gmap string float :=
  <["z" := p'.2]> (<["y" := p'.1.2]> (<["x" := p'.1.1]> arm)).

Definition stepped (s : Session) (p' : vec) (c : call) : Session :=
  mkSession (if is_move c then arm_at p' (arm_state s) else arm_state s)
            (json_commands s ++ [record_of p' c])
            (python_commands s ++ [line_of p' c])
            (files s).

End Lines.

(** The conversion with the multiplication by [pi] made first and the
    division by 180 after it, both in double arithmetic. *)
Definition radians_formula (degrees : float) : float :=
  (degrees * pi / 180)%float.

(** The fixed text [write_python_file] writes before the commands. *)
Definition preamble : string :=
  "from interbotix_xs_modules.arm import InterbotixManipulatorXS" +:+ String LF (String LF "")
  +:+ "bot = InterbotixManipulatorXS(" +:+ String LF ""
  +:+ "    robot_model='vx300'," +:+ String LF ""
  +:+ "    group_name='arm'," +:+ String LF ""
  +:+ "    gripper_name='gripper'" +:+ String LF ""
  +:+ ")" +:+ String LF (String LF "").

(** The lines written after the preamble. *)
Fixpoint script_body (commands : list string) : string :=
  match commands with
  | [] => ""
  | command :: commands' => (strip command +:+ String LF "") +:+ script_body commands'
  end.

(** The state a computation ends in, returned or raised. *)
Definition final {A} (o : outcome A) : Session :=
  match o with Returns _ s => s | Raises _ s => s end.

(** The session of the specification's scenario. *)
Definition scenario : list call :=
  [MoveCartesian None None (Some 5%float);
   MoveCartesian None (Some 10%float) None;
   MoveCartesian None None (Some (-5)%float);
   ControlGripper "close";
   MoveCartesian None None (Some 5%float);
   RotateJoint "waist" 180%float;
   ControlGripper "Open"].

(** *** Vocabulary of the further properties *)

(** The deltas of the moves of a session, in call order; an axis left out
    counts for [0.0]. *)
Fixpoint move_deltas (calls : list call) : list vec :=
  match calls with
  | [] => []
  | MoveCartesian x y z :: calls' => delta_of (MoveCartesian x y z) :: move_deltas calls'
  | _ :: calls' => move_deltas calls'
  end.

Definition is_float (o : option value) : bool :=
  match o with Some (Float _) => true | _ => false end.

Definition is_str (o : option value) : bool :=
  match o with Some (Str _) => true | _ => false end.

Definition is_number (o : option value) : bool :=
  match o with Some (Float _) | Some (Integer _) => true | _ => false end.

(** What a reader of the JSON file can rely on in a record: a ["type"] out
    of three, and the fields of that type and no other; the degrees of a
    rotation are the number as passed, an [int] or a [float]. *)
Definition well_formed (d : dict) : bool :=
  match dict_get d "type" with
  | Some (Str t) =>
      if String.eqb t "cartesian_move" then
        is_float (dict_get d "x") && is_float (dict_get d "y")
        && is_float (dict_get d "z") && (length d =? 4)
      else if String.eqb t "rotate_joint" then
        is_str (dict_get d "joint_name") && is_number (dict_get d "degrees")
        && (length d =? 3)
      else if String.eqb t "gripper" then
        is_str (dict_get d "action") && (length d =? 2)
      else false
  | _ => false
  end.

(** *** Vocabulary for the numbers Python passes *)

(** A number that converts to a double: every float, and an [int] that does
    not round to an infinity. *)
Definition fits (v : number) : bool :=
  match v with
  | PyFloat _ => true
  | PyInt n =>
      match double_of_int n with
      | S754_infinity _ => false
      | _ => true
      end
  end.

(** The double a number is read as. *)
Definition double (v : number) : float :=
  match v with
  | PyFloat f => f
  | PyInt n => SF2Prim (double_of_int n)
  end.

(** The state with [arm_state] replaced by [arm]. *)
Definition set_arm (arm : gmap string float) (s : Session) : Session :=
  mkSession arm (json_commands s) (python_commands s) (files s).

(** The record of a rotation with the degrees as passed. *)
Definition rotation_record (joint_name : string) (degrees : number) : dict :=
  [("type", Str "rotate_joint");
   ("joint_name", Str joint_name); ("degrees", Dyn.stored degrees)].

(** Two states to try the properties on: one with a further key and a file
    from before, one that has lost two of the three keys. *)
Definition sample : Session :=
  mkSession (<["w" := 7%float]> (arm_state initial)) [] [] {["notes.txt" := "kept"]}.

Definition only_x : Session := mkSession {["x" := 4%float]} [] [] ∅.

(** Number of line feeds in a text. *)
Fixpoint count_lf (s : string) : nat :=
  match s with
  | EmptyString => 0
  | String c s' => (if Ascii.eqb c LF then 1 else 0) + count_lf s'
  end.

(** Line feeds in the text arguments of a call. *)
Definition line_feeds_in (c : call) : nat :=
  match c with
  | MoveCartesian _ _ _ => 0
  | RotateJoint joint_name _ => count_lf joint_name
  | ControlGripper action => count_lf action
  end.

(** Every character of a text passes a test. *)
Fixpoint all_chars (P : ascii → bool) (s : string) : bool :=
  match s with
  | EmptyString => true
  | String c s' => P c && all_chars P s'
  end.

(** Printable ASCII, from the space to the tilde. *)
Definition plain (c : ascii) : bool := between 32 126 (ord c).

Definition plain_or_lf (c : ascii) : bool := plain c || Ascii.eqb c LF.

(** An axis after a move: advanced by the delta given, left alone when the
    move leaves the axis out. *)
Definition advance (v : float) (d : option float) : float :=
  match d with
  | Some d => (v + d)%float
  | None => v
  end.

Section Views.
Context `{FloatRepr}.

(** A record and a line that tell the same command. *)
Inductive paired : dict → string → Prop :=
  | paired_move (p : vec) :
      paired (cartesian_move_record p) (move_line p)
  | paired_rotate (joint_name : string) (degrees : float) :
      paired (rotate_joint_record joint_name degrees)
             (rotate_line joint_name (radians degrees))
  | paired_gripper (action : string) :
      paired (gripper_record (lower action)) (gripper_line action).

End Views.

End Spec.

(** ** Properties *)

Import Py Agent Spec.

(** *** Strings *)

Lemma append_cons (ch : ascii) (a b : string) :
  String ch a +:+ b = String ch (a +:+ b).
Proof. reflexivity. Qed.

Lemma append_nil_l (a : string) : "" +:+ a = a.
Proof. reflexivity. Qed.

Lemma append_assoc (a b c : string) : (a +:+ b) +:+ c = a +:+ (b +:+ c).
Proof.
  induction a as [|ch a IH]; [done |].
  rewrite !append_cons. by f_equal.
Qed.

Lemma append_nil_r (a : string) : a +:+ "" = a.
Proof.
  induction a as [|ch a IH]; [done |].
  rewrite append_cons. by f_equal.
Qed.

Lemma length_append (a b : string) :
  String.length (a +:+ b) = String.length a + String.length b.
Proof.
  induction a as [|ch a IH]; [done |].
  rewrite append_cons. simpl. by f_equal.
Qed.

Lemma length_lower (s : string) : String.length (lower s) = String.length s.
Proof. induction s as [|c s IH]; [done | simpl; by f_equal]. Qed.

Lemma char_lower_idem (c : ascii) : char_lower (char_lower c) = char_lower c.
Proof. by destruct c as [[] [] [] [] [] [] [] []]. Qed.

Lemma lower_idem (s : string) : lower (lower s) = lower s.
Proof.
  induction s as [|c s IH]; [done |].
  simpl. f_equal; [apply char_lower_idem | apply IH].
Qed.

(** [rstrip] leaves alone a string that ends in a character that is no
    white space. *)
Lemma rstrip_keeps (s : string) (c : ascii) :
  isspace c = false → rstrip (s +:+ String c "") = s +:+ String c "".
Proof.
  intros Hc. induction s as [|a s IH].
  - rewrite append_nil_l. simpl. by rewrite Hc.
  - rewrite append_cons. simpl. rewrite IH. by destruct s.
Qed.

(** A text that starts with [b] and ends with a closing parenthesis is its
    own [strip]. *)
Lemma strip_command (body : string) :
  strip (String "b" (body +:+ ")")) = String "b" (body +:+ ")").
Proof.
  unfold strip. change (lstrip (String "b" (body +:+ ")"))) with (String "b" (body +:+ ")")).
  change (String "b" (body +:+ ")")) with (String "b" body +:+ String ")" "").
  by apply rstrip_keeps.
Qed.

(** *** One call *)

(** Lookups in [arm_state] after the stores made so far. *)
Ltac arm_lookup :=
  repeat (rewrite lookup_insert_eq || (rewrite lookup_insert_ne by done)).

Section Effects.
Context `{FloatRepr}.

Lemma position_lookup (s : Session) (p : vec) :
  position s = Some p ↔
  arm_state s !! "x" = Some p.1.1 ∧ arm_state s !! "y" = Some p.1.2
  ∧ arm_state s !! "z" = Some p.2.
Proof.
  unfold position. destruct p as [[x y] z]; simpl. split.
  - intros Hp.
    destruct (arm_state s !! "x") as [x'|]; [|done].
    destruct (arm_state s !! "y") as [y'|]; [|done].
    destruct (arm_state s !! "z") as [z'|]; [|done].
    simpl in Hp. by simplify_eq.
  - intros (-> & -> & ->). done.
Qed.

Lemma position_arm_at (s : Session) (p' : vec) (c : call) :
  is_move c = true → position (stepped s p' c) = Some p'.
Proof.
  intros Hc. apply position_lookup. unfold stepped, arm_at. rewrite Hc. simpl.
  destruct p' as [[x y] z]. by simplify_map_eq.
Qed.

(** [move_cartesian] at position [p]: the three sums are stored, then read
    back into the record and into the line. *)
Lemma move_cartesian_at (s : Session) (p : vec) (x y z : float) :
  position s = Some p →
  move_cartesian x y z s
  = Returns tt (stepped s (vadd p (x, y, z)) (MoveCartesian (Some x) (Some y) (Some z))).
Proof.
  intros (Hx & Hy & Hz)%position_lookup. destruct p as [[px py] pz]; simpl in *.
  unfold move_cartesian, arm_iadd, arm_get, arm_set, json_append, python_append,
    mbind, M_bind; simpl.
  rewrite Hx. repeat (progress (simpl; arm_lookup; rewrite ?Hy, ?Hz)).
  reflexivity.
Qed.

(** Without its first key, the same call raises before it appends. *)
Lemma move_cartesian_raises (s : Session) (x y z : float) :
  arm_state s !! "x" = None →
  move_cartesian x y z s = Raises (KeyError "x") s.
Proof.
  intros Hx.
  unfold move_cartesian, arm_iadd, arm_get, raise, mbind, M_bind.
  by rewrite Hx.
Qed.

Lemma rotate_joint_at (s : Session) (joint_name : string) (degrees : float) :
  rotate_joint joint_name degrees s
  = Returns tt (mkSession (arm_state s)
                  (json_commands s ++ [rotate_joint_record joint_name degrees])
                  (python_commands s ++ [rotate_line joint_name (radians degrees)])
                  (files s)).
Proof. reflexivity. Qed.

Lemma control_gripper_at (s : Session) (action : string) :
  control_gripper action s
  = Returns tt (mkSession (arm_state s)
                  (json_commands s ++ [gripper_record (lower action)])
                  (python_commands s ++ [gripper_line action])
                  (files s)).
Proof. reflexivity. Qed.

(** Any call made at position [p] returns, in the state [stepped]. *)
Lemma dispatch_at (s : Session) (p : vec) (c : call) :
  position s = Some p →
  dispatch c s = Returns tt (stepped s (position_after p c) c).
Proof.
  intros Hp. destruct c as [x y z|joint_name degrees|action]; simpl.
  - by rewrite (move_cartesian_at s p).
  - apply rotate_joint_at.
  - apply control_gripper_at.
Qed.

Lemma position_stepped (s : Session) (p : vec) (c : call) :
  position s = Some p →
  position (stepped s (position_after p c) c) = Some (position_after p c).
Proof.
  intros Hp. destruct c; [by apply position_arm_at | done | done].
Qed.

(** *** A session of calls *)

Lemma run_nil (s : Session) : run [] s = Returns tt s.
Proof. reflexivity. Qed.

Lemma run_cons (c : call) (calls : list call) (s : Session) :
  run (c :: calls) s
  = match dispatch c s with
    | Returns _ s' => run calls s'
    | Raises e s' => Raises e s'
    end.
Proof. reflexivity. Qed.

Lemma run_app (pre post : list call) (s : Session) :
  run (pre ++ post) s
  = match run pre s with
    | Returns _ s' => run post s'
    | Raises e s' => Raises e s'
    end.
Proof.
  revert s. induction pre as [|c pre IH]; intros s; [done |].
  rewrite <- app_comm_cons, !run_cons. destruct (dispatch c s); [apply IH | done].
Qed.

(** The session run from position [p]: it returns, and the final state is
    the starting one with the records and lines of the calls appended. *)
Lemma run_at (calls : list call) (s : Session) (p : vec) :
  position s = Some p →
  ∃ s', run calls s = Returns tt s'
        ∧ position s' = Some (fold_left position_after calls p)
        ∧ json_commands s' = json_commands s ++ records p calls
        ∧ python_commands s' = python_commands s ++ lines p calls
        ∧ files s' = files s.
Proof.
  revert s p. induction calls as [|c calls IH]; intros s p Hp.
  - exists s. by rewrite run_nil, !app_nil_r.
  - destruct (IH _ _ (position_stepped s p c Hp)) as (s' & Hrun & Hpos & Hj & Hl & Hf).
    exists s'. rewrite run_cons, (dispatch_at s p c Hp). simpl.
    rewrite Hrun, Hpos, Hj, Hl, Hf. simpl. by rewrite <- !app_assoc.
Qed.

Lemma length_records (p : vec) (calls : list call) :
  length (records p calls) = length calls.
Proof. revert p. induction calls as [|c calls IH]; intros p; simpl; [done | by rewrite IH]. Qed.

Lemma length_lines (p : vec) (calls : list call) :
  length (lines p calls) = length calls.
Proof. revert p. induction calls as [|c calls IH]; intros p; simpl; [done | by rewrite IH]. Qed.

Lemma position_initial : position initial = Some origin.
Proof. reflexivity. Qed.

Lemma records_app (p : vec) (pre post : list call) :
  records p (pre ++ post)
  = records p pre ++ records (fold_left position_after pre p) post.
Proof.
  revert p. induction pre as [|c pre IH]; intros p; simpl; [done | by rewrite IH].
Qed.

Lemma lines_app (p : vec) (pre post : list call) :
  lines p (pre ++ post)
  = lines p pre ++ lines (fold_left position_after pre p) post.
Proof.
  revert p. induction pre as [|c pre IH]; intros p; simpl; [done | by rewrite IH].
Qed.

(** A session from the state at import time. *)
Lemma run_initial (calls : list call) :
  ∃ s, run calls initial = Returns tt s
       ∧ position s = Some (fold_left position_after calls origin)
       ∧ json_commands s = records origin calls
       ∧ python_commands s = lines origin calls
       ∧ files s = ∅.
Proof.
  destruct (run_at calls initial origin position_initial)
    as (s & Hrun & Hpos & Hj & Hl & Hf).
  by exists s.
Qed.

(** Sessions made of moves only. *)
Lemma position_after_move (p d : vec) : position_after p (move_call d) = vadd p d.
Proof. by destruct d as [[dx dy] dz]. Qed.

Lemma fold_moves (deltas : list vec) (p : vec) :
  fold_left position_after (map move_call deltas) p = fold_left vadd deltas p.
Proof.
  revert p. induction deltas as [|d deltas IH]; intros p; simpl; [done |].
  by rewrite IH, <- position_after_move.
Qed.

Lemma records_moves (deltas : list vec) (p : vec) (i : nat) :
  i < length deltas →
  records p (map move_call deltas) !! i
  = Some (cartesian_move_record (fold_left vadd (take (S i) deltas) p)).
Proof.
  revert p i. induction deltas as [|d deltas IH]; intros p i Hi; simpl in Hi; [lia |].
  destruct i as [|i].
  - simpl. by destruct d as [[dx dy] dz].
  - simpl. rewrite IH by lia. by destruct d as [[dx dy] dz].
Qed.

Lemma lines_moves (deltas : list vec) (p : vec) (i : nat) :
  i < length deltas →
  lines p (map move_call deltas) !! i
  = Some (move_line (fold_left vadd (take (S i) deltas) p)).
Proof.
  revert p i. induction deltas as [|d deltas IH]; intros p i Hi; simpl in Hi; [lia |].
  destruct i as [|i].
  - simpl. by destruct d as [[dx dy] dz].
  - simpl. rewrite IH by lia. by destruct d as [[dx dy] dz].
Qed.

(** *** Cumulative position *)

(** C1. In a session of N calls of [move_cartesian] with deltas
    [(dx_i, dy_i, dz_i)] from the all-zero state, every call returns, the
    position stored in the record of the call of index [i] is the sum of
    the deltas up to and including that call, added component by component
    in call order, and [arm_state] after that call holds the same sum. *)
Theorem move_records_hold_running_sums (deltas : list vec) (i : nat) :
  i < length deltas →
  ∃ s_i s_N,
    run (map move_call (take (S i) deltas)) initial = Returns tt s_i
    ∧ run (map move_call deltas) initial = Returns tt s_N
    ∧ position s_i = Some (vsum (take (S i) deltas))
    ∧ json_commands s_i !! i = Some (cartesian_move_record (vsum (take (S i) deltas)))
    ∧ json_commands s_N !! i = Some (cartesian_move_record (vsum (take (S i) deltas)))
    ∧ python_commands s_N !! i = Some (move_line (vsum (take (S i) deltas)))
    ∧ position s_N = Some (vsum deltas)
    ∧ length (json_commands s_N) = length deltas.
Proof.
  intros Hi.
  destruct (run_initial (map move_call (take (S i) deltas)))
    as (s_i & Hrun_i & Hpos_i & Hj_i & _).
  destruct (run_initial (map move_call deltas)) as (s_N & Hrun & Hpos & Hj & Hl & _).
  exists s_i, s_N. rewrite fold_moves in Hpos_i, Hpos.
  repeat split; try done.
  - rewrite Hj_i, records_moves by (rewrite length_take; lia).
    unfold vsum. by rewrite take_take, Nat.min_id.
  - by rewrite Hj, records_moves.
  - by rewrite Hl, lines_moves.
  - by rewrite Hj, length_records, length_map.
Qed.

(** *** The two sequences grow together *)

(** C2. In any session, a call of any of the three tools made after any
    calls [pre] returns and appends exactly one record to [json_commands]
    and exactly one line to [python_commands]; both sequences had
    [length pre] elements before it, and at the end of the session the record
    and the line of that call stand at index [length pre] of sequences of
    equal length. *)
Theorem each_call_appends_one_to_each (pre : list call) (c : call) (post : list call) :
  ∃ s s' s_end d l,
    run pre initial = Returns tt s
    ∧ dispatch c s = Returns tt s'
    ∧ run (pre ++ c :: post) initial = Returns tt s_end
    ∧ json_commands s' = json_commands s ++ [d]
    ∧ python_commands s' = python_commands s ++ [l]
    ∧ length (json_commands s) = length pre
    ∧ length (python_commands s) = length pre
    ∧ json_commands s_end !! length pre = Some d
    ∧ python_commands s_end !! length pre = Some l
    ∧ length (json_commands s_end) = length (pre ++ c :: post)
    ∧ length (python_commands s_end) = length (pre ++ c :: post).
Proof.
  destruct (run_initial pre) as (s & Hrun & Hpos & Hj & Hl & _).
  destruct (run_initial (pre ++ c :: post)) as (s_end & Hrun_e & _ & Hj_e & Hl_e & _).
  set (p := fold_left position_after pre origin) in *.
  exists s, (stepped s (position_after p c) c), s_end,
    (record_of (position_after p c) c), (line_of (position_after p c) c).
  repeat split; try done.
  - by apply dispatch_at.
  - by rewrite Hj, length_records.
  - by rewrite Hl, length_lines.
  - rewrite Hj_e, records_app. simpl.
    rewrite lookup_app_r by (rewrite length_records; lia).
    by rewrite length_records, Nat.sub_diag.
  - rewrite Hl_e, lines_app. simpl.
    rewrite lookup_app_r by (rewrite length_lines; lia).
    by rewrite length_lines, Nat.sub_diag.
  - by rewrite Hj_e, length_records.
  - by rewrite Hl_e, length_lines.
Qed.

End Effects.

Lemma move_records_hold_running_sums_witness :
  ∃ s_i s_N,
    run (H := cpython_repr) (map move_call (take 2 [(0, 0, 5); (0, 10, 0); (0, 0, -5)]%float)) initial
      = Returns tt s_i
    ∧ run (H := cpython_repr) (map move_call [(0, 0, 5); (0, 10, 0); (0, 0, -5)]%float) initial = Returns tt s_N
    ∧ position s_i = Some (vsum (take 2 [(0, 0, 5); (0, 10, 0); (0, 0, -5)]%float))
    ∧ json_commands s_i !! 1
      = Some (cartesian_move_record (vsum (take 2 [(0, 0, 5); (0, 10, 0); (0, 0, -5)]%float)))
    ∧ json_commands s_N !! 1
      = Some (cartesian_move_record (vsum (take 2 [(0, 0, 5); (0, 10, 0); (0, 0, -5)]%float)))
    ∧ python_commands s_N !! 1
      = Some (move_line (H := cpython_repr) (vsum (take 2 [(0, 0, 5); (0, 10, 0); (0, 0, -5)]%float)))
    ∧ position s_N = Some (vsum [(0, 0, 5); (0, 10, 0); (0, 0, -5)]%float)
    ∧ length (json_commands s_N) = length [(0, 0, 5); (0, 10, 0); (0, 0, -5)]%float.
Proof.
  apply (move_records_hold_running_sums (H := cpython_repr) [(0, 0, 5); (0, 10, 0); (0, 0, -5)]%float 1).
  simpl. lia.
Defined.

(** *** The writers *)

Section Writers.
Context `{FloatRepr}.

Lemma bind_returns {A B} (m : M A) (f : A → M B) (s s' : Session) (a : A) :
  m s = Returns a s' → (m ≫= f) s = f a s'.
Proof. intros Hm. unfold mbind, M_bind. by rewrite Hm. Qed.

Lemma f_write_at (filename text t : string) (s : Session) :
  files s !! filename = Some t →
  f_write filename text s
  = Returns tt (set_files (<[filename := t +:+ text]> (files s)) s).
Proof. intros Ht. unfold f_write. by rewrite Ht. Qed.

Lemma set_files_set_files (fs fs' : gmap string string) (s : Session) :
  set_files fs (set_files fs' s) = set_files fs s.
Proof. reflexivity. Qed.

Lemma files_set_files (fs : gmap string string) (s : Session) :
  files (set_files fs s) = fs.
Proof. reflexivity. Qed.

(** The loop of [write_python_file] on a file that holds [t]. *)
Lemma write_commands_at (filename t : string) (commands : list string) (s : Session) :
  files s !! filename = Some t →
  for_each commands (λ command, f_write filename (strip command +:+ String LF "")) s
  = Returns tt (set_files (<[filename := t +:+ script_body commands]> (files s)) s).
Proof.
  revert s t. induction commands as [|c commands IH]; intros s t Ht.
  - simpl. rewrite append_nil_r, insert_id by done. by destruct s.
  - simpl. erewrite bind_returns by (by apply f_write_at).
    erewrite IH by (rewrite files_set_files; apply lookup_insert_eq).
    rewrite set_files_set_files, files_set_files, insert_insert_eq.
    by rewrite append_assoc.
Qed.

(** [write_json_file] returns; the file holds the encoded records. *)
Lemma write_json_file_at (filename : string) (s : Session) :
  write_json_file filename s
  = Returns tt (set_files (<[filename := Json.dumps (json_commands s)]> (files s)) s).
Proof.
  unfold write_json_file, open_w, read, f_write, mbind, M_bind. simpl.
  by rewrite lookup_insert_eq, insert_insert_eq.
Qed.

(** [write_python_file] returns; the file holds the preamble, then the
    commands, one [strip]ped command and a line feed each. *)
Lemma write_python_file_at (filename : string) (s : Session) :
  write_python_file filename s
  = Returns tt (set_files (<[filename := preamble +:+ script_body (python_commands s)]>
                             (files s)) s).
Proof.
  unfold write_python_file.
  erewrite bind_returns by reflexivity.
  do 6 (erewrite bind_returns by (apply f_write_at; rewrite files_set_files; apply lookup_insert_eq);
        rewrite set_files_set_files, files_set_files, insert_insert_eq).
  erewrite bind_returns by reflexivity.
  erewrite write_commands_at by (rewrite files_set_files; apply lookup_insert_eq).
  rewrite set_files_set_files, files_set_files, insert_insert_eq.
  by rewrite !append_assoc.
Qed.

End Writers.

(** *** Lines are written as recorded *)

Section Script.
Context `{FloatRepr}.

Lemma strip_line_of (p : vec) (c : call) : strip (line_of p c) = line_of p c.
Proof.
  destruct c as [x y z|joint_name degrees|action]; simpl.
  - unfold move_line.
    replace (_ +:+ _) with
      (String "b" (("ot.arm.set_ee_cartesian_trajectory(x=" +:+ float_repr p.1.1
                    +:+ ", y=" +:+ float_repr p.1.2 +:+ ", z=" +:+ float_repr p.2) +:+ ")"))
      by (rewrite !append_assoc; reflexivity).
    apply strip_command.
  - unfold rotate_line.
    replace (_ +:+ _) with
      (String "b" (("ot.arm.set_single_joint_position(joint_name='" +:+ joint_name
                    +:+ "', position=" +:+ float_repr (radians degrees)) +:+ ")"))
      by (rewrite !append_assoc; reflexivity).
    apply strip_command.
  - unfold gripper_line.
    replace (_ +:+ _) with (String "b" (("ot.gripper." +:+ action +:+ "(") +:+ ")"))
      by (rewrite !append_assoc; reflexivity).
    apply strip_command.
Qed.

(** In the script of a session every recorded line stands unchanged. *)
Lemma script_body_lines (p : vec) (calls : list call) :
  script_body (lines p calls)
  = fold_right (λ line rest, (line +:+ String LF "") +:+ rest) "" (lines p calls).
Proof.
  revert p. induction calls as [|c calls IH]; intros p; simpl; [done |].
  by rewrite strip_line_of, IH.
Qed.

(** The script written after a session from the state at import time. *)
Lemma script_of_session (calls : list call) (filename : string) :
  ∃ s s', run calls initial = Returns tt s
          ∧ write_python_file filename s = Returns tt s'
          ∧ files s' !! filename
            = Some (preamble +:+ fold_right (λ line rest, (line +:+ String LF "") +:+ rest)
                                   "" (python_commands s)).
Proof.
  destruct (run_initial calls) as (s & Hrun & _ & _ & Hl & _).
  exists s. eexists. split; [done |].
  rewrite write_python_file_at. split; [reflexivity |].
  simpl. rewrite lookup_insert_eq. by rewrite Hl, script_body_lines.
Qed.

End Script.

(** *** Floats *)

Lemma add_nan_r (x : float) : (x + nan)%float = nan.
Proof.
  apply Prim2SF_inj. rewrite add_spec.
  change (Prim2SF nan) with S754_nan. by destruct (Prim2SF x).
Qed.

Lemma add_nan_l (x : float) : (nan + x)%float = nan.
Proof.
  apply Prim2SF_inj. rewrite add_spec.
  change (Prim2SF nan) with S754_nan. by destruct (Prim2SF x).
Qed.

Lemma radians_180 : radians 180 = pi.
Proof. reflexivity. Qed.

(** Remark: in double arithmetic the order of the two operations can show
    in the last place of the result; [math.radians] multiplies by the
    constant [pi / 180]. *)
Lemma radians_formula_3 :
  Prim2SF (radians 3) = S754_finite false 7545853602163670 (-57)
  ∧ Prim2SF (radians_formula 3) = S754_finite false 7545853602163669 (-57).
Proof. split; reflexivity. Qed.

(** *** Rotations: degrees in the record, radians in the line *)

Section Claims.
Context `{FloatRepr}.

(** C3. A call [rotate_joint(joint_name, d)] in any state returns; the
    record it appends holds [joint_name] and the degree value [d] unchanged,
    and the line it appends holds the text of the radian value
    [math.radians(d)], the product in double arithmetic of [d] and the
    constant [pi / 180]; for 180 degrees that value is [math.pi]. *)
Theorem rotate_joint_keeps_degrees_writes_radians
    (s : Session) (joint_name : string) (d : float) :
  ∃ s' record line,
    rotate_joint joint_name d s = Returns tt s'
    ∧ json_commands s' = json_commands s ++ [record]
    ∧ python_commands s' = python_commands s ++ [line]
    ∧ record = [("type", Str "rotate_joint"); ("joint_name", Str joint_name);
                ("degrees", Float d)]
    ∧ dict_get record "degrees" = Some (Float d)
    ∧ line = "bot.arm.set_single_joint_position(joint_name='" +:+ joint_name
             +:+ "', position=" +:+ float_repr (d * (pi / 180))%float +:+ ")"
    ∧ radians d = (d * (pi / 180))%float
    ∧ radians 180 = pi.
Proof.
  eexists _, _, _. rewrite rotate_joint_at.
  do 7 (split; [reflexivity |]). reflexivity.
Qed.

(** *** Gripper: normalised in the record, as given in the line *)

(** C4. A call [control_gripper(action)] in any state returns; the record
    it appends holds [action.lower()], of the same length as [action] and
    with each character in lower case, and the line it appends calls the
    action in the casing the caller gave: ["Open"] is recorded as ["open"]
    and written as [bot.gripper.Open()]. *)
Theorem control_gripper_record_lower_line_original (s : Session) (action : string) :
  ∃ s' record line,
    control_gripper action s = Returns tt s'
    ∧ json_commands s' = json_commands s ++ [record]
    ∧ python_commands s' = python_commands s ++ [line]
    ∧ record = [("type", Str "gripper"); ("action", Str (lower action))]
    ∧ dict_get record "action" = Some (Str (lower action))
    ∧ line = "bot.gripper." +:+ action +:+ "()"
    ∧ String.length (lower action) = String.length action
    ∧ (∀ i, String.get i (lower action) = char_lower <$> String.get i action)
    ∧ lower "Open" = "open"
    ∧ gripper_line "Open" = "bot.gripper.Open()"
    ∧ gripper_line (lower "Open") = "bot.gripper.open()".
Proof.
  eexists _, _, _. rewrite control_gripper_at.
  repeat split; try reflexivity.
  - apply length_lower.
  - induction action as [|c action IH]; intros i; [done |].
    destruct i as [|i]; [done | apply IH].
Qed.

(** C10. A call [control_gripper(action)] in any state returns and appends
    the line ['bot.gripper.' + action + '()'] with [action] as given: the
    line has 14 characters more than [action], and [action] stands in it
    from index 12 on.  The empty action is accepted and gives the line
    [bot.gripper.()]. *)
Theorem control_gripper_line_is_concatenation (s : Session) (action : string) :
  ∃ s' s_empty line,
    control_gripper action s = Returns tt s'
    ∧ python_commands s' = python_commands s ++ [line]
    ∧ line = "bot.gripper." +:+ action +:+ "()"
    ∧ String.length line = 14 + String.length action
    ∧ String.substring 12 (String.length action) line = action
    ∧ control_gripper "" s = Returns tt s_empty
    ∧ python_commands s_empty = python_commands s ++ ["bot.gripper.()"].
Proof.
  eexists _, _, _. rewrite !control_gripper_at.
  repeat split; try reflexivity.
  - unfold gripper_line. rewrite !length_append. simpl. lia.
  - unfold gripper_line.
    change ("bot.gripper." +:+ action +:+ "()")
      with (String "b" (String "o" (String "t" (String "." (String "g" (String "r"
           (String "i" (String "p" (String "p" (String "e" (String "r" (String "."
           (action +:+ "()"))))))))))))).
    simpl. induction action as [|c action IH]; [done |].
    rewrite append_cons. simpl. by rewrite IH.
Qed.

(** *** Frame *)

(** C6. In any state and with any arguments, [rotate_joint],
    [control_gripper] and the two writers return and leave [arm_state] as it
    was: only [move_cartesian] stores into it, and nothing sets it back. *)
Theorem only_move_cartesian_changes_arm_state
    (s : Session) (joint_name action filename : string) (degrees : float) :
  (∃ s', rotate_joint joint_name degrees s = Returns tt s'
         ∧ arm_state s' = arm_state s)
  ∧ (∃ s', control_gripper action s = Returns tt s'
           ∧ arm_state s' = arm_state s)
  ∧ (∃ s', write_json_file filename s = Returns tt s'
           ∧ arm_state s' = arm_state s)
  ∧ (∃ s', write_python_file filename s = Returns tt s'
           ∧ arm_state s' = arm_state s).
Proof.
  repeat split; eexists.
  - by rewrite rotate_joint_at.
  - by rewrite control_gripper_at.
  - by rewrite write_json_file_at.
  - by rewrite write_python_file_at.
Qed.

End Claims.

Section Exports.
Context `{FloatRepr}.

(** *** Writing twice *)

(** C7. Each writer, run twice in a row on the same destination from any
    state, returns both times, leaves the same text in the file both times,
    and changes nothing but that file: [arm_state] and the two command
    sequences are as before, and the second run leaves the state of the
    first. *)
Theorem writing_twice_gives_the_same_file (s : Session) (filename : string) :
  (∃ s1 s2 text,
     write_json_file filename s = Returns tt s1
     ∧ write_json_file filename s1 = Returns tt s2
     ∧ text = Json.dumps (json_commands s)
     ∧ files s1 !! filename = Some text
     ∧ files s2 !! filename = Some text
     ∧ s2 = s1
     ∧ arm_state s1 = arm_state s
     ∧ json_commands s1 = json_commands s
     ∧ python_commands s1 = python_commands s)
  ∧ (∃ s1 s2 text,
       write_python_file filename s = Returns tt s1
       ∧ write_python_file filename s1 = Returns tt s2
       ∧ text = preamble +:+ script_body (python_commands s)
       ∧ files s1 !! filename = Some text
       ∧ files s2 !! filename = Some text
       ∧ s2 = s1
       ∧ arm_state s1 = arm_state s
       ∧ json_commands s1 = json_commands s
       ∧ python_commands s1 = python_commands s).
Proof.
  split.
  - eexists _, _, _. rewrite !write_json_file_at.
    repeat split; try reflexivity; simpl.
    + apply lookup_insert_eq.
    + apply lookup_insert_eq.
    + unfold set_files; simpl. by rewrite insert_insert_eq.
  - eexists _, _, _. rewrite !write_python_file_at.
    repeat split; try reflexivity; simpl.
    + apply lookup_insert_eq.
    + apply lookup_insert_eq.
    + unfold set_files; simpl. by rewrite insert_insert_eq.
Qed.

(** *** Writing an empty session *)

(** C8. With no call made, [write_json_file] leaves the empty list [[]] in
    its file and [write_python_file] leaves the preamble and nothing else.
    In any state the script is that same preamble, which builds the
    manipulator for robot model [vx300], group [arm] and gripper [gripper],
    followed by the commands. *)
Theorem writing_an_empty_session (json_file python_file : string) :
  run [] initial = Returns tt initial
  ∧ (∃ s', write_json_file json_file initial = Returns tt s'
           ∧ files s' !! json_file = Some "[]")
  ∧ (∃ s', write_python_file python_file initial = Returns tt s'
           ∧ files s' !! python_file = Some preamble)
  ∧ (∀ s, ∃ s', write_python_file python_file s = Returns tt s'
                ∧ files s' !! python_file
                  = Some (preamble +:+ script_body (python_commands s)))
  ∧ (∃ s', generate_files initial = Returns tt s'
           ∧ files s' = <["generated_python_commands.py" := preamble]>
                          (<["generated_json_commands.json" := "[]"]> ∅))
  ∧ preamble = "from interbotix_xs_modules.arm import InterbotixManipulatorXS

bot = InterbotixManipulatorXS(
    robot_model='vx300',
    group_name='arm',
    gripper_name='gripper'
)

".
Proof.
  split; [reflexivity |]. split; [| split; [| split; [| split]]].
  - eexists. rewrite write_json_file_at. split; [reflexivity |].
    simpl. apply lookup_insert_eq.
  - eexists. rewrite write_python_file_at. split; [reflexivity |].
    simpl. rewrite lookup_insert_eq. by rewrite append_nil_r.
  - intros s. eexists. rewrite write_python_file_at. split; [reflexivity |].
    simpl. apply lookup_insert_eq.
  - eexists. unfold generate_files.
    erewrite bind_returns by apply write_json_file_at.
    rewrite write_python_file_at. split; [reflexivity |].
    simpl. by rewrite append_nil_r.
  - reflexivity.
Qed.

(** *** No error *)

(** On doubles: after any session of [Agent] calls from the state at
    import time, each tool of [Agent] returns, whatever floats and strings
    it is given; a delta that is not a number leaves not-a-number in
    [arm_state], in the record and in the line.  The same on the numbers
    Python passes is [tools_return_on_numbers_that_fit] below. *)
Theorem tools_return_on_every_input
    (calls : list call) (x y z degrees : float) (joint_name action : string) :
  ∃ s p,
    run calls initial = Returns tt s
    ∧ position s = Some p
    ∧ (∃ s', move_cartesian x y z s = Returns tt s'
             ∧ position s' = Some (vadd p (x, y, z))
             ∧ json_commands s' = json_commands s ++ [cartesian_move_record (vadd p (x, y, z))]
             ∧ python_commands s' = python_commands s ++ [move_line (vadd p (x, y, z))])
    ∧ (∃ s', rotate_joint joint_name degrees s = Returns tt s'
             ∧ json_commands s' = json_commands s ++ [rotate_joint_record joint_name degrees]
             ∧ python_commands s' = python_commands s ++ [rotate_line joint_name (radians degrees)])
    ∧ (∃ s', control_gripper action s = Returns tt s'
             ∧ json_commands s' = json_commands s ++ [gripper_record (lower action)]
             ∧ python_commands s' = python_commands s ++ [gripper_line action])
    ∧ (∃ s', move_cartesian nan nan nan s = Returns tt s'
             ∧ position s' = Some (nan, nan, nan)
             ∧ json_commands s' = json_commands s ++ [cartesian_move_record (nan, nan, nan)]
             ∧ python_commands s' = python_commands s ++ [move_line (nan, nan, nan)]).
Proof.
  destruct (run_initial calls) as (s & Hrun & Hpos & _).
  exists s, (fold_left position_after calls origin).
  split; [done |]. split; [done |]. split; [| split; [| split]].
  - eexists. rewrite (move_cartesian_at s _ x y z Hpos).
    split; [reflexivity |]. split; [| done].
    by apply position_arm_at.
  - eexists. by rewrite rotate_joint_at.
  - eexists. by rewrite control_gripper_at.
  - eexists. rewrite (move_cartesian_at s _ nan nan nan Hpos).
    assert (vadd (fold_left position_after calls origin) (nan, nan, nan) = (nan, nan, nan))
      as Hnan by (unfold vadd; simpl; by rewrite !add_nan_r).
    rewrite Hnan. split; [reflexivity |]. split; [| done].
    by apply position_arm_at.
Qed.

End Exports.

(** *** The scenario *)

(** C5. The seven calls of the scenario, made from the state at import time:
    the seven records are the absolute positions (0, 0, 5), (0, 10, 5),
    (0, 10, 0), the gripper action [close], the position (0, 10, 5), the
    joint [waist] with 180 degrees and the gripper action [open]; the seven
    lines carry the same positions, the radian value [math.pi] printed
    [3.141592653589793], and the calls [close()] and [Open()]. *)
Theorem scenario_outputs :
  (∀ H : FloatRepr, ∃ s,
     run scenario initial = Returns tt s
     ∧ json_commands s =
         [[("type", Str "cartesian_move"); ("x", Float 0); ("y", Float 0); ("z", Float 5)];
          [("type", Str "cartesian_move"); ("x", Float 0); ("y", Float 10); ("z", Float 5)];
          [("type", Str "cartesian_move"); ("x", Float 0); ("y", Float 10); ("z", Float 0)];
          [("type", Str "gripper"); ("action", Str "close")];
          [("type", Str "cartesian_move"); ("x", Float 0); ("y", Float 10); ("z", Float 5)];
          [("type", Str "rotate_joint"); ("joint_name", Str "waist"); ("degrees", Float 180)];
          [("type", Str "gripper"); ("action", Str "open")]]
     ∧ python_commands s =
         [move_line (0, 0, 5)%float; move_line (0, 10, 5)%float; move_line (0, 10, 0)%float;
          "bot.gripper.close()"; move_line (0, 10, 5)%float;
          rotate_line "waist" pi; "bot.gripper.Open()"]
     ∧ position s = Some (0, 10, 5)%float)
  ∧ python_commands (final (run (H := cpython_repr) scenario initial)) =
      ["bot.arm.set_ee_cartesian_trajectory(x=0.0, y=0.0, z=5.0)";
       "bot.arm.set_ee_cartesian_trajectory(x=0.0, y=10.0, z=5.0)";
       "bot.arm.set_ee_cartesian_trajectory(x=0.0, y=10.0, z=0.0)";
       "bot.gripper.close()";
       "bot.arm.set_ee_cartesian_trajectory(x=0.0, y=10.0, z=5.0)";
       "bot.arm.set_single_joint_position(joint_name='waist', position=3.141592653589793)";
       "bot.gripper.Open()"]
  ∧ radians 180 = pi.
Proof.
  split; [| split; [by vm_compute | reflexivity]].
  intros H. exists (final (run scenario initial)).
  split; [| split; [| split]]; vm_compute; reflexivity.
Qed.

(** The script written for the scenario. *)
Example scenario_script :
  ∃ s s',
    run (H := cpython_repr) scenario initial = Returns tt s
    ∧ write_python_file "generated_python_commands.py" s = Returns tt s'
    ∧ files s' !! "generated_python_commands.py" =
        Some "from interbotix_xs_modules.arm import InterbotixManipulatorXS

bot = InterbotixManipulatorXS(
    robot_model='vx300',
    group_name='arm',
    gripper_name='gripper'
)

bot.arm.set_ee_cartesian_trajectory(x=0.0, y=0.0, z=5.0)
bot.arm.set_ee_cartesian_trajectory(x=0.0, y=10.0, z=5.0)
bot.arm.set_ee_cartesian_trajectory(x=0.0, y=10.0, z=0.0)
bot.gripper.close()
bot.arm.set_ee_cartesian_trajectory(x=0.0, y=10.0, z=5.0)
bot.arm.set_single_joint_position(joint_name='waist', position=3.141592653589793)
bot.gripper.Open()
".
Proof.
  exists (final (run (H := cpython_repr) scenario initial)).
  eexists. split; [vm_compute; reflexivity |].
  rewrite write_python_file_at. split; [reflexivity |].
  vm_compute; reflexivity.
Qed.

(** ** Further properties of the tools *)

Section Sessions.
Context `{FloatRepr}.

(** *** The missing key *)

Lemma position_none (s : Session) :
  position s = None →
  arm_state s !! "x" = None
  ∨ (∃ vx, arm_state s !! "x" = Some vx ∧ arm_state s !! "y" = None)
  ∨ (∃ vx vy, arm_state s !! "x" = Some vx ∧ arm_state s !! "y" = Some vy
              ∧ arm_state s !! "z" = None).
Proof.
  unfold position. intros Hp.
  destruct (arm_state s !! "x") as [vx|]; [| by left].
  destruct (arm_state s !! "y") as [vy|]; [| right; left; by exists vx].
  destruct (arm_state s !! "z") as [vz|]; [done |].
  right; right. by exists vx, vy.
Qed.

(** X1. When [arm_state] lacks one of its three keys, [move_cartesian]
    raises [KeyError] for the first key that is absent, in the order x, y,
    z.  Nothing is appended and no file changes, but the axes before the
    absent key have already been advanced. *)
Theorem move_cartesian_missing_key (s : Session) (x y z : float) :
  position s = None →
  ∃ k s',
    move_cartesian x y z s = Raises (KeyError k) s'
    ∧ arm_state s !! k = None
    ∧ json_commands s' = json_commands s
    ∧ python_commands s' = python_commands s
    ∧ files s' = files s
    ∧ ((k = "x" ∧ arm_state s' = arm_state s)
       ∨ (k = "y" ∧ ∃ vx, arm_state s !! "x" = Some vx
                          ∧ arm_state s' = <["x" := (vx + x)%float]> (arm_state s))
       ∨ (k = "z" ∧ ∃ vx vy, arm_state s !! "x" = Some vx ∧ arm_state s !! "y" = Some vy
                             ∧ arm_state s' = <["y" := (vy + y)%float]>
                                                (<["x" := (vx + x)%float]> (arm_state s)))).
Proof.
  intros [Hx | [(vx & Hx & Hy) | (vx & vy & Hx & Hy & Hz)]]%position_none.
  - exists "x", s. rewrite move_cartesian_raises by done.
    repeat split; try done. by left.
  - exists "y". eexists.
    unfold move_cartesian, arm_iadd, arm_get, arm_set, raise, mbind, M_bind.
    rewrite Hx. simpl. arm_lookup. rewrite Hy.
    split; [reflexivity |]. simpl. repeat split; try done.
    right; left. split; [done |]. by exists vx.
  - exists "z". eexists.
    unfold move_cartesian, arm_iadd, arm_get, arm_set, raise, mbind, M_bind.
    rewrite Hx. simpl. arm_lookup. rewrite Hy. simpl. arm_lookup. rewrite Hz.
    split; [reflexivity |]. simpl. repeat split; try done.
    right; right. split; [done |]. by exists vx, vy.
Qed.

End Sessions.

Lemma move_cartesian_missing_key_witness :
  ∃ k s',
    move_cartesian (H := cpython_repr) 1 2 3 only_x = Raises (KeyError k) s'
    ∧ arm_state only_x !! k = None
    ∧ json_commands s' = json_commands only_x
    ∧ python_commands s' = python_commands only_x
    ∧ files s' = files only_x
    ∧ ((k = "x" ∧ arm_state s' = arm_state only_x)
       ∨ (k = "y" ∧ ∃ vx, arm_state only_x !! "x" = Some vx
                          ∧ arm_state s' = <["x" := (vx + 1)%float]> (arm_state only_x))
       ∨ (k = "z" ∧ ∃ vx vy, arm_state only_x !! "x" = Some vx
                             ∧ arm_state only_x !! "y" = Some vy
                             ∧ arm_state s' = <["y" := (vy + 2)%float]>
                                                (<["x" := (vx + 1)%float]>
                                                   (arm_state only_x)))).
Proof.
  apply (move_cartesian_missing_key (H := cpython_repr) only_x 1 2 3).
  reflexivity.
Defined.

Section Logs.
Context `{FloatRepr}.

(** *** Position in a mixed session *)

Lemma fold_position_after (calls : list call) (p : vec) :
  fold_left position_after calls p = fold_left vadd (move_deltas calls) p.
Proof.
  revert p. induction calls as [|c calls IH]; intros p; [done |].
  destruct c; simpl; apply IH.
Qed.

Lemma move_deltas_app (pre post : list call) :
  move_deltas (pre ++ post) = move_deltas pre ++ move_deltas post.
Proof.
  induction pre as [|c pre IH]; [done |].
  destruct c; simpl; by rewrite ?IH.
Qed.

Lemma records_lookup_mid (p : vec) (pre post : list call) (c : call) :
  records p (pre ++ c :: post) !! length pre
  = Some (record_of (position_after (fold_left position_after pre p) c) c).
Proof.
  rewrite records_app, lookup_app_r by (rewrite length_records; lia).
  by rewrite length_records, Nat.sub_diag.
Qed.

Lemma lines_lookup_mid (p : vec) (pre post : list call) (c : call) :
  lines p (pre ++ c :: post) !! length pre
  = Some (line_of (position_after (fold_left position_after pre p) c) c).
Proof.
  rewrite lines_app, lookup_app_r by (rewrite length_lines; lia).
  by rewrite length_lines, Nat.sub_diag.
Qed.

(** X2. In a session that mixes the three tools, with axes left out of
    some moves, the position at the end is the sum, in call order, of the
    deltas of the moves alone, and the record of a move holds the sum of the
    deltas of the moves up to and including it: rotations and gripper
    actions in between count for nothing. *)
Theorem mixed_session_sums_the_moves
    (pre post : list call) (x y z : option float) :
  ∃ s,
    run (pre ++ MoveCartesian x y z :: post) initial = Returns tt s
    ∧ position s = Some (vsum (move_deltas (pre ++ MoveCartesian x y z :: post)))
    ∧ json_commands s !! length pre
      = Some (cartesian_move_record
                (vsum (move_deltas pre ++ [delta_of (MoveCartesian x y z)])))
    ∧ python_commands s !! length pre
      = Some (move_line (vsum (move_deltas pre ++ [delta_of (MoveCartesian x y z)]))).
Proof.
  destruct (run_initial (pre ++ MoveCartesian x y z :: post))
    as (s & Hrun & Hpos & Hj & Hl & _).
  exists s. split; [done |]. split; [by rewrite Hpos, fold_position_after |].
  assert (position_after (fold_left position_after pre origin) (MoveCartesian x y z)
          = vsum (move_deltas pre ++ [delta_of (MoveCartesian x y z)])) as Hp.
  { unfold vsum. by rewrite fold_left_app, fold_position_after. }
  split.
  - by rewrite Hj, records_lookup_mid, Hp.
  - by rewrite Hl, lines_lookup_mid, Hp.
Qed.

(** *** The sequences only grow *)

(** X3. Calls made later never change or remove what earlier calls
    recorded: the two sequences after a session are prefixes of the two
    sequences after any longer session, which adds one entry to each for
    every further call. *)
Theorem earlier_entries_stay (pre post : list call) :
  ∃ s_pre s_all,
    run pre initial = Returns tt s_pre
    ∧ run (pre ++ post) initial = Returns tt s_all
    ∧ json_commands s_pre `prefix_of` json_commands s_all
    ∧ python_commands s_pre `prefix_of` python_commands s_all
    ∧ length (json_commands s_all) = length (json_commands s_pre) + length post
    ∧ length (python_commands s_all) = length (python_commands s_pre) + length post.
Proof.
  destruct (run_initial pre) as (s_pre & Hrun & _ & Hj & Hl & _).
  destruct (run_initial (pre ++ post)) as (s_all & Hrun' & _ & Hj' & Hl' & _).
  exists s_pre, s_all. split; [done |]. split; [done |].
  rewrite Hj, Hl, Hj', Hl', records_app, lines_app.
  split; [by eexists |]. split; [by eexists |].
  by rewrite !length_app, !length_records, !length_lines.
Qed.

(** *** Record and line tell the same command *)

Lemma paired_records_lines (p : vec) (calls : list call) :
  Forall2 paired (records p calls) (lines p calls).
Proof.
  revert p. induction calls as [|c calls IH]; intros p; simpl; [constructor |].
  constructor; [| apply IH].
  destruct c; simpl; constructor.
Qed.

(** X4. After any session the two sequences match entry by entry: a
    record of a move stands beside the line of the same position, a record
    of a rotation beside the line of the same joint with the radians of its
    degrees, and a gripper record beside the line of an action whose lower
    case it holds. *)
Theorem records_and_lines_are_paired (calls : list call) :
  ∃ s, run calls initial = Returns tt s
       ∧ Forall2 paired (json_commands s) (python_commands s).
Proof.
  destruct (run_initial calls) as (s & Hrun & _ & Hj & Hl & _).
  exists s. split; [done |]. rewrite Hj, Hl. apply paired_records_lines.
Qed.

(** *** Shape of the records *)

Lemma well_formed_record_of (p : vec) (c : call) : well_formed (record_of p c) = true.
Proof. by destruct c. Qed.

(** *** What a session leaves alone *)

Lemma arm_at_other (p : vec) (arm : gmap string float) (k : string) :
  k ≠ "x" → k ≠ "y" → k ≠ "z" → arm_at p arm !! k = arm !! k.
Proof. intros Hx Hy Hz. unfold arm_at. by rewrite !lookup_insert_ne. Qed.

(** X6. A session of calls, from any state in which the three keys are
    bound, returns without touching any file and without touching any other
    key of [arm_state]. *)
Theorem session_leaves_files_and_other_keys
    (calls : list call) (s : Session) (p : vec) (k : string) :
  position s = Some p →
  k ≠ "x" → k ≠ "y" → k ≠ "z" →
  ∃ s', run calls s = Returns tt s'
        ∧ files s' = files s
        ∧ arm_state s' !! k = arm_state s !! k.
Proof.
  intros Hp Hx Hy Hz. revert s p Hp.
  induction calls as [|c calls IH]; intros s p Hp.
  - by exists s.
  - destruct (IH _ _ (position_stepped s p c Hp)) as (s' & Hrun & Hf & Hk).
    exists s'. rewrite run_cons, (dispatch_at s p c Hp).
    split; [done |]. split; [done |].
    rewrite Hk. unfold stepped; simpl.
    destruct (is_move c); [by apply arm_at_other | done].
Qed.

End Logs.

Lemma session_leaves_files_and_other_keys_witness :
  ∃ s', run (H := cpython_repr) scenario sample = Returns tt s'
        ∧ files s' = files sample
        ∧ arm_state s' !! "w" = arm_state sample !! "w".
Proof.
  apply (session_leaves_files_and_other_keys (H := cpython_repr) scenario sample origin "w");
    [reflexivity | discriminate | discriminate | discriminate].
Defined.

(** ** Further properties of the writers *)

Section Files.
Context `{FloatRepr}.

(** X7. A writer changes the file it is given and no other: every other
    file holds after the call what it held before. *)
Theorem writers_touch_one_file (s : Session) (filename other : string) :
  other ≠ filename →
  (∃ s', write_json_file filename s = Returns tt s'
         ∧ files s' !! other = files s !! other)
  ∧ (∃ s', write_python_file filename s = Returns tt s'
           ∧ files s' !! other = files s !! other).
Proof.
  intros Hne. split; eexists.
  - rewrite write_json_file_at. split; [reflexivity |].
    simpl. by rewrite lookup_insert_ne.
  - rewrite write_python_file_at. split; [reflexivity |].
    simpl. by rewrite lookup_insert_ne.
Qed.

(** X8. With two different destinations the order of the two writers
    does not matter: both orders end in the same state, with both files
    written. *)
Theorem writers_commute (s : Session) (json_file python_file : string) :
  json_file ≠ python_file →
  ∃ s',
    (write_json_file json_file;; write_python_file python_file) s = Returns tt s'
    ∧ (write_python_file python_file;; write_json_file json_file) s = Returns tt s'
    ∧ files s' !! json_file = Some (Json.dumps (json_commands s))
    ∧ files s' !! python_file = Some (preamble +:+ script_body (python_commands s)).
Proof.
  intros Hne. eexists.
  erewrite (bind_returns (write_json_file json_file)) by apply write_json_file_at.
  erewrite (bind_returns (write_python_file python_file)) by apply write_python_file_at.
  rewrite write_python_file_at, write_json_file_at. simpl.
  rewrite !set_files_set_files.
  split; [reflexivity |]. split; [by rewrite insert_insert_ne |].
  rewrite files_set_files. split.
  - by rewrite lookup_insert_ne, lookup_insert_eq.
  - by rewrite lookup_insert_eq.
Qed.

(** X9. With one destination for both writers the later one wins: the
    file holds the text of the writer that ran last and nothing of the
    other. *)
Theorem later_writer_wins (s : Session) (filename : string) :
  (write_json_file filename;; write_python_file filename) s
  = write_python_file filename s
  ∧ (write_python_file filename;; write_json_file filename) s
    = write_json_file filename s.
Proof.
  split.
  - erewrite bind_returns by apply write_json_file_at.
    rewrite !write_python_file_at. simpl.
    by rewrite set_files_set_files, insert_insert_eq.
  - erewrite bind_returns by apply write_python_file_at.
    rewrite !write_json_file_at. simpl.
    by rewrite set_files_set_files, insert_insert_eq.
Qed.

(** X10. Lines 131 to 133 after any session: [generate_files] returns and
    leaves two files, [generated_json_commands.json] with the encoded
    records and [generated_python_commands.py] with the preamble and one
    line per command as recorded; the sequences and [arm_state] stay. *)
Theorem generate_files_after_session (calls : list call) :
  ∃ s s',
    run calls initial = Returns tt s
    ∧ generate_files s = Returns tt s'
    ∧ files s'
      = <["generated_python_commands.py" :=
            preamble +:+ fold_right (λ line rest, (line +:+ String LF "") +:+ rest) ""
                           (python_commands s)]>
          (<["generated_json_commands.json" := Json.dumps (json_commands s)]> ∅)
    ∧ arm_state s' = arm_state s
    ∧ json_commands s' = json_commands s
    ∧ python_commands s' = python_commands s.
Proof.
  destruct (run_initial calls) as (s & Hrun & _ & _ & Hl & Hf).
  exists s. eexists. split; [done |]. unfold generate_files.
  erewrite bind_returns by apply write_json_file_at.
  rewrite write_python_file_at. split; [reflexivity |]. simpl.
  by rewrite Hf, Hl, script_body_lines.
Qed.

Lemma script_body_app (pre post : list string) :
  script_body (pre ++ post) = script_body pre +:+ script_body post.
Proof.
  induction pre as [|c pre IH]; [done |].
  simpl. by rewrite IH, !append_assoc.
Qed.

(** X11. The script of a longer session starts with the whole script of
    the shorter one: writing again after further calls adds the lines of
    those calls at the end and changes nothing before them. *)
Theorem script_grows_at_the_end (pre post : list call) (filename : string) :
  ∃ s_pre s_all w_pre w_all text,
    run pre initial = Returns tt s_pre
    ∧ run (pre ++ post) initial = Returns tt s_all
    ∧ write_python_file filename s_pre = Returns tt w_pre
    ∧ write_python_file filename s_all = Returns tt w_all
    ∧ files w_pre !! filename = Some text
    ∧ files w_all !! filename
      = Some (text +:+ script_body (drop (length pre) (python_commands s_all))).
Proof.
  destruct (run_initial pre) as (s_pre & Hrun & _ & _ & Hl & _).
  destruct (run_initial (pre ++ post)) as (s_all & Hrun' & _ & _ & Hl' & _).
  exists s_pre, s_all. eexists _, _, _.
  split; [done |]. split; [done |].
  rewrite !write_python_file_at.
  split; [reflexivity |]. split; [reflexivity |]. simpl.
  split; [apply lookup_insert_eq |].
  rewrite lookup_insert_eq, Hl, Hl', lines_app.
  rewrite drop_app_length' by (by rewrite length_lines).
  by rewrite script_body_app, append_assoc.
Qed.

End Files.

Lemma writers_touch_one_file_witness :
  (∃ s', write_json_file (H := cpython_repr) "notes.txt.json" sample = Returns tt s'
         ∧ files s' !! "notes.txt" = files sample !! "notes.txt")
  ∧ (∃ s', write_python_file "notes.txt.json" sample = Returns tt s'
           ∧ files s' !! "notes.txt" = files sample !! "notes.txt").
Proof.
  apply (writers_touch_one_file (H := cpython_repr) sample "notes.txt.json" "notes.txt").
  discriminate.
Defined.

Lemma writers_commute_witness :
  ∃ s',
    (write_json_file (H := cpython_repr) "a.json";; write_python_file "a.py") sample
      = Returns tt s'
    ∧ (write_python_file "a.py";; write_json_file (H := cpython_repr) "a.json") sample
      = Returns tt s'
    ∧ files s' !! "a.json" = Some (Json.dumps (H := cpython_repr) (json_commands sample))
    ∧ files s' !! "a.py" = Some (preamble +:+ script_body (python_commands sample)).
Proof.
  apply (writers_commute (H := cpython_repr) sample "a.json" "a.py").
  discriminate.
Defined.

(** ** Further properties of the arithmetic *)

(** Adding [0.0] changes nothing but the sign of a negative zero. *)
Lemma add_zero_r (x : float) : x ≠ neg_zero → (x + 0)%float = x.
Proof.
  intros Hx. apply Prim2SF_inj. rewrite add_spec.
  change (Prim2SF 0) with (S754_zero false).
  destruct (Prim2SF x) as [sx| | |sx mx ex] eqn:Ex; try reflexivity.
  destruct sx; [| reflexivity].
  destruct Hx. by apply Prim2SF_inj.
Qed.

Lemma advance_default (v : float) (d : option float) :
  v ≠ neg_zero → (v + default 0%float d)%float = advance v d.
Proof. intros Hv. destruct d; [done | by apply add_zero_r]. Qed.

Lemma binary_round_aux_negb (sx : bool) (mx ex : Z) (lx : location) :
  binary_round_aux prec emax (negb sx) mx ex lx
  = SFopp (binary_round_aux prec emax sx mx ex lx).
Proof.
  unfold binary_round_aux.
  destruct (shr_fexp prec emax mx ex lx) as [mrs' e'].
  destruct (shr_fexp prec emax _ e' loc_Exact) as [mrs'' e''].
  destruct (shr_m mrs''); try reflexivity.
  by destruct (e'' <=? emax - prec)%Z.
Qed.

Lemma mul_opp_l (x y : float) : (- x * y)%float = (- (x * y))%float.
Proof.
  apply Prim2SF_inj. rewrite opp_spec, !mul_spec, opp_spec.
  unfold SF64mul.
  destruct (Prim2SF x) as [sx|sx| |sx mx ex], (Prim2SF y) as [sy|sy| |sy my ey];
    simpl; try reflexivity; try (by destruct sx, sy).
  rewrite <- binary_round_aux_negb. by destruct sx, sy.
Qed.

Section Arithmetic.
Context `{FloatRepr}.

(** X15. A move changes the axes it names and no other: where no
    component of the position is the negative zero, a call of
    [move_cartesian] with some axes left out returns with each named axis
    advanced by its delta and each other axis as it was, and still appends
    the record and the line of the resulting position; with no axis named,
    it appends the current position once more. *)
Theorem move_leaves_omitted_axes (s : Session) (p : vec) (x y z : option float) :
  position s = Some p →
  p.1.1 ≠ neg_zero → p.1.2 ≠ neg_zero → p.2 ≠ neg_zero →
  ∃ s',
    dispatch (MoveCartesian x y z) s = Returns tt s'
    ∧ position s' = Some (advance p.1.1 x, advance p.1.2 y, advance p.2 z)
    ∧ json_commands s' = json_commands s ++
        [cartesian_move_record (advance p.1.1 x, advance p.1.2 y, advance p.2 z)]
    ∧ python_commands s' = python_commands s ++
        [move_line (advance p.1.1 x, advance p.1.2 y, advance p.2 z)].
Proof.
  intros Hp Hx Hy Hz. eexists.
  rewrite (dispatch_at s p _ Hp).
  assert (position_after p (MoveCartesian x y z)
          = (advance p.1.1 x, advance p.1.2 y, advance p.2 z)) as ->.
  { destruct p as [[px py] pz]. unfold position_after, vadd; simpl in *.
    by rewrite !advance_default. }
  split; [reflexivity |].
  split; [by apply position_arm_at |].
  split; reflexivity.
Qed.

(** X16. The conversion to radians is odd, for every double: a call of
    [rotate_joint] with the degrees negated appends the line of the negated
    radian value, so a rotation and its reverse are written with values
    that differ in sign only. *)
Theorem rotate_joint_negated (s : Session) (joint_name : string) (d : float) :
  ∃ s' s'',
    rotate_joint joint_name d s = Returns tt s'
    ∧ rotate_joint joint_name (- d) s = Returns tt s''
    ∧ python_commands s' = python_commands s ++ [rotate_line joint_name (radians d)]
    ∧ python_commands s'' = python_commands s ++ [rotate_line joint_name (- radians d)]
    ∧ radians (- d) = (- radians d)%float.
Proof.
  eexists _, _. rewrite !rotate_joint_at.
  split; [reflexivity |]. split; [reflexivity |]. split; [reflexivity |].
  simpl. unfold radians. by rewrite mul_opp_l.
Qed.

End Arithmetic.

Lemma move_leaves_omitted_axes_witness :
  ∃ s',
    dispatch (H := cpython_repr) (MoveCartesian None None (Some 5%float)) sample
      = Returns tt s'
    ∧ position s' = Some (advance origin.1.1 None, advance origin.1.2 None,
                          advance origin.2 (Some 5%float))
    ∧ json_commands s' = json_commands sample ++
        [cartesian_move_record (advance origin.1.1 None, advance origin.1.2 None,
                                advance origin.2 (Some 5%float))]
    ∧ python_commands s' = python_commands sample ++
        [move_line (H := cpython_repr)
           (advance origin.1.1 None, advance origin.1.2 None,
            advance origin.2 (Some 5%float))].
Proof.
  apply (move_leaves_omitted_axes (H := cpython_repr) sample origin None None (Some 5%float));
    [reflexivity | | | ]; intros Heq; apply (f_equal Prim2SF) in Heq; discriminate Heq.
Defined.

(** ** Further properties of the gripper tool *)

Lemma append_inj_r (a b c : string) : a +:+ c = b +:+ c → a = b.
Proof.
  revert b. induction a as [|x a IH]; intros [|y b] Heq.
  - done.
  - apply (f_equal String.length) in Heq.
    rewrite append_nil_l, append_cons in Heq. simpl in Heq.
    rewrite length_append in Heq. lia.
  - apply (f_equal String.length) in Heq.
    rewrite append_nil_l, append_cons in Heq. simpl in Heq.
    rewrite length_append in Heq. lia.
  - rewrite !append_cons in Heq. injection Heq as -> Heq. f_equal. by apply IH.
Qed.

Lemma gripper_line_inj (a b : string) : gripper_line a = gripper_line b → a = b.
Proof.
  unfold gripper_line. intros Heq.
  change ("bot.gripper." +:+ a +:+ "()")
    with (String "b" (String "o" (String "t" (String "." (String "g" (String "r"
         (String "i" (String "p" (String "p" (String "e" (String "r" (String "."
         (a +:+ "()"))))))))))))) in Heq.
  change ("bot.gripper." +:+ b +:+ "()")
    with (String "b" (String "o" (String "t" (String "." (String "g" (String "r"
         (String "i" (String "p" (String "p" (String "e" (String "r" (String "."
         (b +:+ "()"))))))))))))) in Heq.
  injection Heq as Heq. by apply append_inj_r in Heq.
Qed.

Section Gripper.
Context `{FloatRepr}.

(** X14. Two calls of [control_gripper] made in the same state leave the
    same record exactly when their actions agree up to case, and the same
    line exactly when their actions are the same text; the record of a call
    names the action its own line calls exactly when the action has no
    capital to lower. *)
Theorem gripper_record_ignores_case_line_does_not (s : Session) (a b : string) :
  ∃ sa sb,
    control_gripper a s = Returns tt sa
    ∧ control_gripper b s = Returns tt sb
    ∧ (json_commands sa = json_commands sb ↔ lower a = lower b)
    ∧ (python_commands sa = python_commands sb ↔ a = b)
    ∧ (python_commands sa = python_commands s ++ [gripper_line (lower a)] ↔ lower a = a).
Proof.
  eexists _, _. rewrite !control_gripper_at.
  split; [reflexivity |]. split; [reflexivity |]. simpl.
  split; [| split].
  - split.
    + intros Heq%app_inj_tail. destruct Heq as [_ Heq]. by injection Heq.
    + by intros ->.
  - split.
    + intros Heq%app_inj_tail. destruct Heq as [_ Heq]. by apply gripper_line_inj.
    + by intros ->.
  - split.
    + intros Heq%app_inj_tail. destruct Heq as [_ Heq].
      symmetry. by apply gripper_line_inj.
    + by intros ->.
Qed.

End Gripper.

(** ** Further properties of the written texts *)

Lemma all_chars_append (P : ascii → bool) (a b : string) :
  all_chars P (a +:+ b) = all_chars P a && all_chars P b.
Proof.
  induction a as [|c a IH]; [done |].
  rewrite append_cons. simpl. by rewrite IH, andb_assoc.
Qed.

Lemma count_lf_append (a b : string) : count_lf (a +:+ b) = count_lf a + count_lf b.
Proof.
  induction a as [|c a IH]; [done |].
  rewrite append_cons. simpl. rewrite IH. lia.
Qed.

Lemma all_chars_impl (P Q : ascii → bool) (s : string) :
  (∀ c, P c = true → Q c = true) → all_chars P s = true → all_chars Q s = true.
Proof.
  intros HPQ. induction s as [|c s IH]; [done |]. simpl.
  intros [Hc Hs]%andb_true_iff. by rewrite (HPQ c Hc), IH.
Qed.

Lemma plain_not_lf (c : ascii) : plain c = true → Ascii.eqb c LF = false.
Proof. by destruct c as [[] [] [] [] [] [] [] []]. Qed.

Lemma plain_count_lf (s : string) : all_chars plain s = true → count_lf s = 0.
Proof.
  induction s as [|c s IH]; [done |]. simpl.
  intros [Hc Hs]%andb_true_iff. by rewrite (plain_not_lf c Hc), IH.
Qed.

Lemma all_chars_substring (P : ascii → bool) (n m : nat) (s : string) :
  all_chars P s = true → all_chars P (String.substring n m s) = true.
Proof.
  revert n m. induction s as [|c s IH]; intros n m Hs.
  - by destruct n, m.
  - simpl in Hs. apply andb_true_iff in Hs as [Hc Hs].
    destruct n as [|n]; simpl.
    + destruct m as [|m]; [done |]. simpl. by rewrite Hc, IH.
    + by apply IH.
Qed.

(** *** The text of a float *)

Lemma digit_plain (n : Z) : plain (ascii_of_N (48 + Z.to_N (n mod 10))) = true.
Proof.
  pose proof (Z.mod_pos_bound n 10 eq_refl) as Hk.
  assert (Z.to_N (n mod 10) < 10)%N as Hlt by lia.
  destruct (Z.to_N (n mod 10)) as [|k]; [done |].
  do 4 (destruct k as [k|k|]; try done; try lia).
Qed.

Lemma digits_fuel_plain (fuel : nat) (n : Z) (acc : string) :
  all_chars plain acc = true → all_chars plain (digits_fuel fuel n acc) = true.
Proof.
  revert n acc. induction fuel as [|fuel IH]; intros n acc Hacc; [done |].
  simpl. destruct (n <? 10)%Z.
  - simpl. by rewrite digit_plain.
  - apply IH. simpl. by rewrite digit_plain.
Qed.

Lemma digits_plain (n : Z) : all_chars plain (digits n) = true.
Proof. by apply digits_fuel_plain. Qed.

Lemma rstrip_zeros_chars (P : ascii → bool) (s : string) :
  all_chars P s = true → all_chars P (rstrip_zeros s) = true.
Proof.
  induction s as [|c s IH]; [done |]. simpl.
  intros [Hc Hs]%andb_true_iff. specialize (IH Hs).
  destruct (rstrip_zeros s) as [|c' r].
  - destruct (Ascii.eqb c "0"); [done |]. simpl. by rewrite Hc.
  - simpl in *. by rewrite Hc, IH.
Qed.

Lemma zeros_plain (n : nat) : all_chars plain (zeros n) = true.
Proof. induction n as [|n IH]; [done | by simpl; rewrite IH]. Qed.

Lemma format_short_plain (ds : string) (decpt : Z) :
  all_chars plain ds = true → all_chars plain (format_short ds decpt) = true.
Proof.
  intros Hds. unfold format_short, substring_from.
  repeat match goal with
         | |- context [if ?b then _ else _] => destruct b
         end;
    rewrite ?all_chars_append, ?all_chars_substring, ?digits_plain, ?zeros_plain,
      ?Hds by done; done.
Qed.

Lemma double_to_string_r_plain (x : float) :
  all_chars plain (double_to_string_r x) = true.
Proof.
  unfold double_to_string_r.
  destruct (Prim2SF x) as [[]|[]| |sx m e]; try done.
  unfold finite_digits.
  destruct (decpt_from _ _ _ _) as [p T].
  destruct (shortest _ _ _ _ _ _ _) as [D q].
  rewrite all_chars_append, format_short_plain
    by (apply rstrip_zeros_chars, digits_plain).
  by destruct sx.
Qed.

(** *** Lines of the script *)

Lemma count_lf_float (x : float) : count_lf (float_repr (FloatRepr := cpython_repr) x) = 0.
Proof. apply plain_count_lf, double_to_string_r_plain. Qed.

Lemma count_lf_line_of (p : vec) (c : call) :
  count_lf (line_of (H := cpython_repr) p c) = line_feeds_in c.
Proof.
  destruct c as [x y z|joint_name degrees|action]; simpl.
  - unfold move_line. by rewrite !count_lf_append, !count_lf_float.
  - unfold rotate_line. rewrite !count_lf_append, !count_lf_float. simpl. lia.
  - unfold gripper_line. rewrite !count_lf_append. simpl. lia.
Qed.

Lemma count_lf_script_body (p : vec) (calls : list call) :
  count_lf (script_body (lines (H := cpython_repr) p calls))
  = length calls + sum_list (map line_feeds_in calls).
Proof.
  revert p. induction calls as [|c calls IH]; intros p; [done |].
  simpl. rewrite strip_line_of, !count_lf_append, count_lf_line_of, IH. simpl. lia.
Qed.

(** X12. With the float text of CPython, the script written after a
    session holds the eight line feeds of the preamble, one line feed for
    every command, and one more for every line feed in a joint name or an
    action, which are written as given.  When no text argument holds a line
    feed, the script has one line for each command after the preamble. *)
Theorem script_line_feeds (calls : list call) (filename : string) :
  ∃ s s' text,
    run (H := cpython_repr) calls initial = Returns tt s
    ∧ write_python_file filename s = Returns tt s'
    ∧ files s' !! filename = Some text
    ∧ count_lf text = 8 + length calls + sum_list (map line_feeds_in calls)
    ∧ (Forall (λ c, line_feeds_in c = 0) calls → count_lf text = 8 + length calls).
Proof.
  destruct (run_initial (H := cpython_repr) calls) as (s & Hrun & _ & _ & Hl & _).
  exists s. eexists _, _. split; [done |].
  rewrite write_python_file_at. split; [reflexivity |]. simpl.
  split; [apply lookup_insert_eq |].
  rewrite count_lf_append, Hl, count_lf_script_body.
  change (count_lf preamble) with 8.
  split; [lia |].
  intros Hall. replace (sum_list (map line_feeds_in calls)) with 0; [lia |].
  clear -Hall. induction Hall as [|c calls Hc _ IH]; [done |].
  simpl. by rewrite Hc, <- IH.
Qed.

(** *** Characters of the JSON file *)

Lemma escape_char_plain (c : ascii) : all_chars plain (Json.escape_char c) = true.
Proof. by destruct c as [[] [] [] [] [] [] [] []]. Qed.

Lemma escape_plain (s : string) : all_chars plain (Json.escape s) = true.
Proof.
  induction s as [|c s IH]; [done |].
  simpl. by rewrite all_chars_append, escape_char_plain, IH.
Qed.

Lemma encode_str_plain (s : string) : all_chars plain (Json.encode_str s) = true.
Proof.
  unfold Json.encode_str. rewrite append_cons. simpl.
  by rewrite all_chars_append, escape_plain.
Qed.

Lemma encode_value_plain (v : value) :
  all_chars plain (Json.encode_value (H := cpython_repr) v) = true.
Proof.
  destruct v as [s|f|n]; simpl; [apply encode_str_plain | |].
  - unfold Json.floatstr.
    repeat match goal with
           | |- context [if ?b then _ else _] => destruct b
           end; try done.
    apply double_to_string_r_plain.
  - unfold int_repr. destruct (n <? 0)%Z; [| apply digits_plain].
    by rewrite all_chars_append, digits_plain.
Qed.

Lemma plain_plain_or_lf (s : string) :
  all_chars plain s = true → all_chars plain_or_lf s = true.
Proof.
  apply all_chars_impl. intros c Hc. unfold plain_or_lf. by rewrite Hc.
Qed.

Lemma newline_indent_chars (level : nat) :
  all_chars plain_or_lf (Json.newline_indent level) = true.
Proof.
  unfold Json.newline_indent. simpl.
  induction level as [|level IH]; [done |]. simpl. apply IH.
Qed.

Lemma join_chars (P : ascii → bool) (sep : string) (l : list string) :
  all_chars P sep = true → Forall (λ s, all_chars P s = true) l →
  all_chars P (join sep l) = true.
Proof.
  intros Hsep Hl. induction Hl as [|s l Hs Hl IH]; [done |].
  simpl. destruct l as [|s' l']; [done |].
  by rewrite !all_chars_append, Hs, Hsep, IH.
Qed.

Lemma encode_dict_chars (level : nat) (d : dict) :
  all_chars plain_or_lf (Json.encode_dict (H := cpython_repr) level d) = true.
Proof.
  unfold Json.encode_dict. destruct d as [|kv d]; [done |].
  rewrite !all_chars_append, !newline_indent_chars, join_chars; [done | |].
  - by rewrite all_chars_append, newline_indent_chars.
  - apply List.Forall_forall. intros s [kv' [<- _]]%in_map_iff.
    unfold Json.encode_item. apply plain_plain_or_lf.
    by rewrite !all_chars_append, encode_str_plain, encode_value_plain.
Qed.

(** X13. With the float text of CPython, the JSON text of any list of
    records is made of printable ASCII characters and line feeds, whatever
    characters the joint names and actions hold: what is not printable
    ASCII is written as an escape.  So is the file [write_json_file]
    writes in any state. *)
Theorem json_file_is_ascii (s : Session) (filename : string) :
  ∃ s' text,
    write_json_file (H := cpython_repr) filename s = Returns tt s'
    ∧ files s' !! filename = Some text
    ∧ all_chars plain_or_lf text = true.
Proof.
  eexists _, _. rewrite write_json_file_at. split; [reflexivity |]. simpl.
  split; [apply lookup_insert_eq |].
  unfold Json.dumps, Json.encode_list.
  destruct (json_commands s) as [|d l]; [done |].
  rewrite !all_chars_append, !newline_indent_chars, join_chars; [done | |].
  - by rewrite all_chars_append, newline_indent_chars.
  - apply List.Forall_forall. intros t [d' [<- _]]%in_map_iff.
    apply encode_dict_chars.
Qed.

(** ** The tools on the numbers Python passes *)

Lemma bind_raises {A B} (m : M A) (f : A → M B) (s s' : Session) (e : exn) :
  m s = Raises e s' → (m ≫= f) s = Raises e s'.
Proof. intros Hm. unfold mbind, M_bind. by rewrite Hm. Qed.

Lemma bind_cong {A B} (m1 m2 : M A) (f1 f2 : A → M B) (s : Session) :
  m1 s = m2 s → (∀ a s', f1 a s' = f2 a s') → (m1 ≫= f1) s = (m2 ≫= f2) s.
Proof.
  intros Hm Hf. unfold mbind, M_bind. rewrite Hm.
  destruct (m2 s); [apply Hf | done].
Qed.

Lemma as_double_fits (v : number) (s : Session) :
  fits v = true → Dyn.as_double v s = Returns (double v) s.
Proof.
  destruct v as [n|f]; [| done]. unfold fits, Dyn.as_double, double.
  by destruct (double_of_int n).
Qed.

Lemma as_double_overflow (v : number) (s : Session) :
  fits v = false → Dyn.as_double v s = Raises OverflowError s.
Proof.
  destruct v as [n|f]; [| done]. unfold fits, Dyn.as_double.
  by destruct (double_of_int n).
Qed.

(** [arm_state[k] += v] on a bound key. *)
Lemma dyn_arm_iadd_fits (k : string) (v : number) (cur : float) (s : Session) :
  arm_state s !! k = Some cur → fits v = true →
  Dyn.arm_iadd k v s = Returns tt (set_arm (<[k := (cur + double v)%float]> (arm_state s)) s).
Proof.
  intros Hk Hv. unfold Dyn.arm_iadd.
  erewrite bind_returns by (unfold arm_get; by rewrite Hk).
  by erewrite bind_returns by (by apply as_double_fits).
Qed.

Lemma dyn_arm_iadd_overflow (k : string) (v : number) (cur : float) (s : Session) :
  arm_state s !! k = Some cur → fits v = false →
  Dyn.arm_iadd k v s = Raises OverflowError s.
Proof.
  intros Hk Hv. unfold Dyn.arm_iadd.
  erewrite bind_returns by (unfold arm_get; by rewrite Hk).
  by erewrite bind_raises by (by apply as_double_overflow).
Qed.

Lemma dyn_arm_iadd_typed (k : string) (v : number) (s : Session) :
  fits v = true → Dyn.arm_iadd k v s = arm_iadd k (double v) s.
Proof.
  intros Hv. unfold Dyn.arm_iadd, arm_iadd, arm_get, mbind, M_bind.
  destruct (arm_state s !! k); [| done].
  by rewrite as_double_fits.
Qed.

Section Numbers.
Context `{FloatRepr}.

(** On numbers that fit, the tools are the tools of [Agent] on the doubles
    the numbers are read as; on floats they are the same tools. *)
Lemma dyn_move_cartesian_typed (x y z : number) (s : Session) :
  fits x = true → fits y = true → fits z = true →
  Dyn.move_cartesian x y z s = move_cartesian (double x) (double y) (double z) s.
Proof.
  intros Hx Hy Hz. unfold Dyn.move_cartesian, move_cartesian.
  apply bind_cong; [by apply dyn_arm_iadd_typed | intros _ s1].
  apply bind_cong; [by apply dyn_arm_iadd_typed | intros _ s2].
  apply bind_cong; [by apply dyn_arm_iadd_typed | done].
Qed.

End Numbers.

Section NumberCalls.
Context `{FloatRepr}.

Lemma dyn_rotate_joint_fits (joint_name : string) (degrees : number) (s : Session) :
  fits degrees = true →
  Dyn.rotate_joint joint_name degrees s
  = Returns tt (mkSession (arm_state s)
                  (json_commands s ++ [rotation_record joint_name degrees])
                  (python_commands s ++ [rotate_line joint_name (radians (double degrees))])
                  (files s)).
Proof.
  intros Hd. unfold Dyn.rotate_joint.
  by erewrite bind_returns by (by apply as_double_fits).
Qed.

Lemma dyn_rotate_joint_overflow (joint_name : string) (degrees : number) (s : Session) :
  fits degrees = false →
  Dyn.rotate_joint joint_name degrees s = Raises OverflowError s.
Proof.
  intros Hd. unfold Dyn.rotate_joint.
  by erewrite bind_raises by (by apply as_double_overflow).
Qed.

(** On floats the two models are the same. *)
Lemma dyn_agrees_on_floats (s : Session) (x y z d : float) (joint_name : string) :
  Dyn.move_cartesian (PyFloat x) (PyFloat y) (PyFloat z) s = move_cartesian x y z s
  ∧ Dyn.rotate_joint joint_name (PyFloat d) s = rotate_joint joint_name d s.
Proof.
  split; [by apply dyn_move_cartesian_typed |].
  by rewrite dyn_rotate_joint_fits, rotate_joint_at.
Qed.

(** [move_cartesian] with an [int] too large for a double, by the axis that
    carries it: the axes before it are advanced, nothing else happens. *)
Lemma dyn_move_cartesian_overflow_x (s : Session) (p : vec) (x y z : number) :
  position s = Some p → fits x = false →
  Dyn.move_cartesian x y z s = Raises OverflowError s.
Proof.
  intros (Hx & _)%position_lookup Hfx. unfold Dyn.move_cartesian.
  by erewrite bind_raises by (by eapply dyn_arm_iadd_overflow).
Qed.

Lemma dyn_move_cartesian_overflow_y (s : Session) (p : vec) (x y z : number) :
  position s = Some p → fits x = true → fits y = false →
  Dyn.move_cartesian x y z s
  = Raises OverflowError
      (set_arm (<["x" := (p.1.1 + double x)%float]> (arm_state s)) s).
Proof.
  intros (Hx & Hy & _)%position_lookup Hfx Hfy. unfold Dyn.move_cartesian.
  erewrite bind_returns by (by eapply dyn_arm_iadd_fits).
  erewrite bind_raises; [reflexivity |].
  eapply dyn_arm_iadd_overflow; [| done]. simpl. by rewrite lookup_insert_ne.
Qed.

Lemma dyn_move_cartesian_overflow_z (s : Session) (p : vec) (x y z : number) :
  position s = Some p → fits x = true → fits y = true → fits z = false →
  Dyn.move_cartesian x y z s
  = Raises OverflowError
      (set_arm (<["y" := (p.1.2 + double y)%float]>
                  (<["x" := (p.1.1 + double x)%float]> (arm_state s))) s).
Proof.
  intros (Hx & Hy & Hz)%position_lookup Hfx Hfy Hfz. unfold Dyn.move_cartesian.
  erewrite bind_returns by (by eapply dyn_arm_iadd_fits).
  erewrite bind_returns
    by (eapply dyn_arm_iadd_fits; [simpl; by rewrite lookup_insert_ne | done]).
  erewrite bind_raises; [reflexivity |].
  eapply dyn_arm_iadd_overflow; [| done]. simpl. by rewrite !lookup_insert_ne.
Qed.

Lemma position_set_arm_x (s : Session) (p : vec) (v : float) :
  position s = Some p →
  position (set_arm (<["x" := v]> (arm_state s)) s) = Some (v, p.1.2, p.2).
Proof.
  intros (Hx & Hy & Hz)%position_lookup. apply position_lookup. simpl.
  split; [| split]; by arm_lookup.
Qed.

Lemma position_set_arm_xy (s : Session) (p : vec) (v w : float) :
  position s = Some p →
  position (set_arm (<["y" := w]> (<["x" := v]> (arm_state s))) s) = Some (v, w, p.2).
Proof.
  intros (Hx & Hy & Hz)%position_lookup. apply position_lookup. simpl.
  split; [| split]; by arm_lookup.
Qed.

(** What one call does to a state in which the three keys are bound: it
    returns with one well-formed record and one line more, or it raises
    [OverflowError] with the sequences as they were; the keys stay bound and
    the files stay. *)
Lemma dyn_dispatch_outcome (c : Dyn.call) (s : Session) (p : vec) :
  position s = Some p →
  ∃ s',
    final (Dyn.dispatch c s) = s'
    ∧ is_Some (position s')
    ∧ files s' = files s
    ∧ ((∃ d l, Dyn.dispatch c s = Returns tt s'
               ∧ json_commands s' = json_commands s ++ [d]
               ∧ python_commands s' = python_commands s ++ [l]
               ∧ well_formed d = true)
       ∨ (Dyn.dispatch c s = Raises OverflowError s'
          ∧ json_commands s' = json_commands s
          ∧ python_commands s' = python_commands s)).
Proof.
  intros Hp. destruct c as [x y z|joint_name degrees|action]; simpl.
  - set (x' := default (PyFloat 0) x). set (y' := default (PyFloat 0) y).
    set (z' := default (PyFloat 0) z).
    destruct (fits x') eqn:Hx.
    + destruct (fits y') eqn:Hy.
      * destruct (fits z') eqn:Hz.
        -- rewrite dyn_move_cartesian_typed, (move_cartesian_at s p) by done.
           eexists. split; [reflexivity |]. cbn [final].
           split; [by erewrite position_arm_at |]. split; [done |].
           left. by eexists _, _.
        -- rewrite (dyn_move_cartesian_overflow_z s p) by done.
           eexists. split; [reflexivity |]. cbn [final].
           split; [by erewrite position_set_arm_xy |]. split; [done |]. by right.
      * rewrite (dyn_move_cartesian_overflow_y s p) by done.
        eexists. split; [reflexivity |]. cbn [final].
        split; [by erewrite position_set_arm_x |]. split; [done |]. by right.
    + rewrite (dyn_move_cartesian_overflow_x s p) by done.
      exists s. split; [done |]. split; [exists p; exact Hp |]. split; [done |]. by right.
  - destruct (fits degrees) eqn:Hd.
    + rewrite dyn_rotate_joint_fits by done.
      eexists. split; [reflexivity |]. cbn [final]. split; [exists p; exact Hp |]. split; [done |].
      left. eexists _, _. split; [reflexivity |]. split; [done |]. split; [done |].
      by destruct degrees.
    + rewrite dyn_rotate_joint_overflow by done.
      exists s. split; [done |]. split; [exists p; exact Hp |]. split; [done |]. by right.
  - rewrite control_gripper_at.
    eexists. split; [reflexivity |]. cbn [final]. split; [exists p; exact Hp |]. split; [done |].
    left. by eexists _, _.
Qed.

(** A session, run to its end or to the first call that raises: the keys
    stay bound, the files stay, every record is well formed and the two
    sequences keep one length. *)
Lemma dyn_run_invariant (calls : list Dyn.call) (s : Session) (p : vec) :
  position s = Some p →
  forallb well_formed (json_commands s) = true →
  length (json_commands s) = length (python_commands s) →
  is_Some (position (final (Dyn.run calls s)))
  ∧ files (final (Dyn.run calls s)) = files s
  ∧ forallb well_formed (json_commands (final (Dyn.run calls s))) = true
  ∧ length (json_commands (final (Dyn.run calls s)))
    = length (python_commands (final (Dyn.run calls s))).
Proof.
  revert s p. induction calls as [|c calls IH]; intros s p Hp Hwf Hlen.
  - simpl. by rewrite Hp.
  - destruct (dyn_dispatch_outcome c s p Hp)
      as (s' & Hfin & [p' Hp'] & Hf & [(d & l & Hc & Hj & Hl & Hd) | (Hc & Hj & Hl)]).
    + change (Dyn.run (c :: calls) s) with ((Dyn.dispatch c;; Dyn.run calls) s).
      erewrite bind_returns by exact Hc. rewrite <- Hf.
      apply (IH s' p' Hp').
      * rewrite Hj, forallb_app, Hwf. simpl. by rewrite Hd.
      * rewrite Hj, Hl, !length_app. simpl. lia.
    + change (Dyn.run (c :: calls) s) with ((Dyn.dispatch c;; Dyn.run calls) s).
      erewrite bind_raises by exact Hc. simpl.
      rewrite Hp', Hf, Hj, Hl. by split; [eexists |].
Qed.

End NumberCalls.

(** *** No error, on the numbers that fit *)

(** C9, as stated, fails: the finite number [10**400], passed as the [int]
    it is, makes [move_cartesian] raise [OverflowError] at line 33, or at
    line 34 after the x axis has been advanced, and makes [rotate_joint]
    raise it at line 52. *)
Lemma a_large_int_raises_overflow_error :
  Dyn.move_cartesian (H := cpython_repr) (PyInt (10 ^ 400)) (PyFloat 0) (PyFloat 0) initial
  = Raises OverflowError initial
  ∧ Dyn.move_cartesian (H := cpython_repr) (PyFloat 1) (PyInt (10 ^ 400)) (PyFloat 0) initial
    = Raises OverflowError (set_arm (<["x" := 1%float]> (arm_state initial)) initial)
  ∧ Dyn.rotate_joint (H := cpython_repr) "waist" (PyInt (10 ^ 400)) initial
    = Raises OverflowError initial.
Proof. split; [| split]; vm_compute; reflexivity. Qed.

(** The largest [int] that fits and the first that does not. *)
Example fits_boundary :
  fits (PyInt (2 ^ 1024 - 2 ^ 970 - 1)) = true
  ∧ fits (PyInt (2 ^ 1024 - 2 ^ 970)) = false
  ∧ fits (PyInt (- (2 ^ 1024 - 2 ^ 970 - 1))) = true
  ∧ fits (PyInt (- (2 ^ 1024 - 2 ^ 970))) = false.
Proof. repeat split; vm_compute; reflexivity. Qed.

Section NumberClaims.
Context `{FloatRepr}.

(** C9, amended. After any session from the state at import time, run to
    its end or cut short by an error, each tool returns on every float,
    finite or not, on every [int] that converts to a double, and on every
    string: the joint name and the degrees are recorded as given, the action
    is recorded in lower case and written as given, and a delta is added to
    the position without a check; a delta that is not a number leaves
    not-a-number in [arm_state], in the record and in the line. *)
Theorem tools_return_on_numbers_that_fit
    (calls : list Dyn.call) (x y z degrees : number) (joint_name action : string) :
  fits x = true → fits y = true → fits z = true → fits degrees = true →
  ∃ s p,
    s = final (Dyn.run calls initial)
    ∧ position s = Some p
    ∧ (∃ s', Dyn.move_cartesian x y z s = Returns tt s'
             ∧ position s' = Some (vadd p (double x, double y, double z))
             ∧ json_commands s' = json_commands s ++
                 [cartesian_move_record (vadd p (double x, double y, double z))]
             ∧ python_commands s' = python_commands s ++
                 [move_line (vadd p (double x, double y, double z))])
    ∧ (∃ s', Dyn.rotate_joint joint_name degrees s = Returns tt s'
             ∧ json_commands s' = json_commands s ++
                 [[("type", Str "rotate_joint"); ("joint_name", Str joint_name);
                   ("degrees", Dyn.stored degrees)]]
             ∧ python_commands s' = python_commands s ++
                 [rotate_line joint_name (radians (double degrees))])
    ∧ (∃ s', control_gripper action s = Returns tt s'
             ∧ json_commands s' = json_commands s ++ [gripper_record (lower action)]
             ∧ python_commands s' = python_commands s ++ [gripper_line action])
    ∧ (∃ s', Dyn.move_cartesian (PyFloat nan) (PyFloat nan) (PyFloat nan) s = Returns tt s'
             ∧ position s' = Some (nan, nan, nan)
             ∧ json_commands s' = json_commands s ++ [cartesian_move_record (nan, nan, nan)]
             ∧ python_commands s' = python_commands s ++ [move_line (nan, nan, nan)])
    ∧ (∀ f, fits (PyFloat f) = true).
Proof.
  intros Hx Hy Hz Hd.
  destruct (dyn_run_invariant calls initial origin) as ([p Hp] & _); [done.. |].
  exists (final (Dyn.run calls initial)), p.
  split; [done |]. split; [done |].
  split; [| split; [| split; [| split]]].
  - eexists. rewrite dyn_move_cartesian_typed, (move_cartesian_at _ p) by done.
    split; [reflexivity |]. split; [| done]. by apply position_arm_at.
  - eexists. by rewrite dyn_rotate_joint_fits.
  - eexists. by rewrite control_gripper_at.
  - eexists. rewrite dyn_move_cartesian_typed, (move_cartesian_at _ p) by done.
    assert (vadd p (double (PyFloat nan), double (PyFloat nan), double (PyFloat nan))
            = (nan, nan, nan)) as ->
      by (unfold vadd; simpl; by rewrite !add_nan_r).
    split; [reflexivity |]. split; [| done]. by apply position_arm_at.
  - done.
Qed.

(** *** Records after a session with errors *)

(** X5. After any session of calls with [int] or [float] arguments, run to
    its end or cut short by [OverflowError], every record has a ["type"] out
    of [cartesian_move], [rotate_joint] and [gripper] and exactly the fields
    of that type (floats x, y, z, also where the deltas were [int]; a string
    [joint_name] and the degrees as passed, [int] or [float]; a string
    [action]), and the two sequences have one length: an error leaves no
    record without its line and no half-built record. *)
Theorem records_stay_well_formed (calls : list Dyn.call) :
  forallb well_formed (json_commands (final (Dyn.run calls initial))) = true
  ∧ length (json_commands (final (Dyn.run calls initial)))
    = length (python_commands (final (Dyn.run calls initial))).
Proof.
  destruct (dyn_run_invariant calls initial origin) as (_ & _ & Hwf & Hlen); done.
Qed.

(** *** The large [int] *)

(** X17. In a state in which the three keys are bound, an [int] too large
    for a double makes [move_cartesian] raise [OverflowError] when it reaches
    the axis that carries it: the axes before it, whose numbers fit, have
    been advanced, nothing is appended and no file changes.  It makes
    [rotate_joint] raise before anything is appended. *)
Theorem int_too_large_raises
    (s : Session) (p : vec) (big a b : number) (joint_name : string) :
  position s = Some p →
  fits big = false → fits a = true → fits b = true →
  Dyn.move_cartesian big a b s = Raises OverflowError s
  ∧ Dyn.move_cartesian a big b s
    = Raises OverflowError (set_arm (<["x" := (p.1.1 + double a)%float]> (arm_state s)) s)
  ∧ Dyn.move_cartesian a b big s
    = Raises OverflowError
        (set_arm (<["y" := (p.1.2 + double b)%float]>
                    (<["x" := (p.1.1 + double a)%float]> (arm_state s))) s)
  ∧ Dyn.rotate_joint joint_name big s = Raises OverflowError s.
Proof.
  intros Hp Hbig Ha Hb. split; [| split; [| split]].
  - by apply (dyn_move_cartesian_overflow_x s p).
  - by apply (dyn_move_cartesian_overflow_y s p).
  - by apply (dyn_move_cartesian_overflow_z s p).
  - by apply dyn_rotate_joint_overflow.
Qed.

End NumberClaims.

Lemma tools_return_on_numbers_that_fit_witness :
  ∃ s p,
    s = final (Dyn.run (H := cpython_repr)
                 [Dyn.MoveCartesian None None (Some (PyInt 5));
                  Dyn.RotateJoint "waist" (PyInt (10 ^ 400))] initial)
    ∧ position s = Some p
    ∧ (∃ s', Dyn.move_cartesian (H := cpython_repr) (PyInt 5) (PyFloat 10) (PyInt (-5)) s
             = Returns tt s'
             ∧ position s'
               = Some (vadd p (double (PyInt 5), double (PyFloat 10), double (PyInt (-5))))
             ∧ json_commands s' = json_commands s ++
                 [cartesian_move_record
                    (vadd p (double (PyInt 5), double (PyFloat 10), double (PyInt (-5))))]
             ∧ python_commands s' = python_commands s ++
                 [move_line (H := cpython_repr)
                    (vadd p (double (PyInt 5), double (PyFloat 10), double (PyInt (-5))))])
    ∧ (∃ s', Dyn.rotate_joint (H := cpython_repr) "waist" (PyInt 180) s = Returns tt s'
             ∧ json_commands s' = json_commands s ++
                 [[("type", Str "rotate_joint"); ("joint_name", Str "waist");
                   ("degrees", Dyn.stored (PyInt 180))]]
             ∧ python_commands s' = python_commands s ++
                 [rotate_line (H := cpython_repr) "waist" (radians (double (PyInt 180)))])
    ∧ (∃ s', control_gripper "Open" s = Returns tt s'
             ∧ json_commands s' = json_commands s ++ [gripper_record (lower "Open")]
             ∧ python_commands s' = python_commands s ++ [gripper_line "Open"])
    ∧ (∃ s', Dyn.move_cartesian (H := cpython_repr) (PyFloat nan) (PyFloat nan) (PyFloat nan) s
             = Returns tt s'
             ∧ position s' = Some (nan, nan, nan)
             ∧ json_commands s' = json_commands s ++ [cartesian_move_record (nan, nan, nan)]
             ∧ python_commands s' = python_commands s ++
                 [move_line (H := cpython_repr) (nan, nan, nan)])
    ∧ (∀ f, fits (PyFloat f) = true).
Proof.
  apply (tools_return_on_numbers_that_fit (H := cpython_repr)
           [Dyn.MoveCartesian None None (Some (PyInt 5));
            Dyn.RotateJoint "waist" (PyInt (10 ^ 400))]
           (PyInt 5) (PyFloat 10) (PyInt (-5)) (PyInt 180) "waist" "Open");
    reflexivity.
Defined.

Lemma int_too_large_raises_witness :
  Dyn.move_cartesian (H := cpython_repr) (PyInt (10 ^ 400)) (PyInt 5) (PyFloat 2) sample
  = Raises OverflowError sample
  ∧ Dyn.move_cartesian (H := cpython_repr) (PyInt 5) (PyInt (10 ^ 400)) (PyFloat 2) sample
    = Raises OverflowError
        (set_arm (<["x" := (origin.1.1 + double (PyInt 5))%float]> (arm_state sample)) sample)
  ∧ Dyn.move_cartesian (H := cpython_repr) (PyInt 5) (PyFloat 2) (PyInt (10 ^ 400)) sample
    = Raises OverflowError
        (set_arm (<["y" := (origin.1.2 + double (PyFloat 2))%float]>
                    (<["x" := (origin.1.1 + double (PyInt 5))%float]> (arm_state sample)))
                 sample)
  ∧ Dyn.rotate_joint (H := cpython_repr) "waist" (PyInt (10 ^ 400)) sample
    = Raises OverflowError sample.
Proof.
  apply (int_too_large_raises (H := cpython_repr) sample origin
           (PyInt (10 ^ 400)) (PyInt 5) (PyFloat 2) "waist");
    reflexivity.
Defined.
